(** * simple_agent_ui: the chat page [src/pages/landing.jsx]

    A shallow embedding of the behaviour of the [LandingPage] component:
    the backend locator ([getBackendURL]), the response formatter
    ([formatAIResponse]), the tool directory client ([fetchAvailableTools])
    and the chat session controller ([handleSubmit]).

    - JavaScript strings are sequences of UTF-16 code units: [list N].
    - Regular expressions are run by a backtracking matcher over the
      constructs the page's patterns use; it lists the ways a pattern
      matches at a position in the order the engine tries them, and the
      engine's answer is the first.
    - The values a response body can hold are those of JSON, with
      [undefined] for what a missing property reads as.  Numbers are kept
      abstract.
    - The component's state is a record, the setters are commands over it,
      and [try]/[catch]/[finally] are combinators of a state and exception
      monad.  An asynchronous handler is cut at its [await]: the part that
      runs at once, and the part that runs when the request settles, with
      what the request settles to as an input. *)

From Stdlib Require Import Ascii String DecimalString.
From Stdlib Require Import List NArith ZArith Lia Bool Arith.
Import ListNotations.

Set Implicit Arguments.

(** ** JavaScript strings *)

Module JsString.

Abbreviation jsstring := (list N).

(** An ASCII literal of the source, as code units. *)
Definition str (s : String.string) : jsstring :=
  List.map Ascii.N_of_ascii (String.list_ascii_of_string s).
Arguments str s%_string.

Definition LF : N := 10.

Fixpoint eqb (a b : jsstring) : bool :=
  match a, b with
  | [], [] => true
  | x :: a', y :: b' => N.eqb x y && eqb a' b'
  | _, _ => false
  end.

(** [String.prototype.startsWith] *)
Fixpoint startsWith (p s : jsstring) : bool :=
  match p, s with
  | [], _ => true
  | _ :: _, [] => false
  | x :: p', y :: s' => N.eqb x y && startsWith p' s'
  end.

(** [String.prototype.includes] *)
Fixpoint includes (needle s : jsstring) : bool :=
  startsWith needle s ||
  match s with
  | [] => false
  | _ :: s' => includes needle s'
  end.

(** White space and line terminators, the characters [trim] strips. *)
Definition is_space (c : N) : bool :=
  existsb (N.eqb c)
    [9; 10; 11; 12; 13; 32; 160; 5760; 8232; 8233; 8239; 8287; 12288; 65279]%N
  || (N.leb 8192 c && N.leb c 8202).

Fixpoint trimStart (s : jsstring) : jsstring :=
  match s with
  | [] => []
  | c :: s' => if is_space c then trimStart s' else s
  end.

Definition trimEnd (s : jsstring) : jsstring := rev (trimStart (rev s)).

(** [String.prototype.trim] *)
Definition trim (s : jsstring) : jsstring := trimEnd (trimStart s).

(** [s.replace(p, e)] with a string pattern [p] and the empty string [e]:
    the first occurrence of [p] in [s] is removed, and [s] is unchanged
    when there is none. *)
Fixpoint replace_empty (p s : jsstring) : jsstring :=
  if startsWith p s then skipn (length p) s
  else match s with
       | [] => []
       | c :: s' => c :: replace_empty p s'
       end.

(** [Array.prototype.join] *)
Fixpoint join (sep : jsstring) (l : list jsstring) : jsstring :=
  match l with
  | [] => []
  | [x] => x
  | x :: l' => x ++ sep ++ join sep l'
  end.

(** [Array.prototype.slice(0, n)] and [slice(n)] for [0 <= n]. *)
Definition slice_to {A} (n : nat) (l : list A) : list A := firstn n l.
Definition slice_from {A} (n : nat) (l : list A) : list A := skipn n l.

End JsString.

Import JsString.

(** ** Regular expressions

    The patterns of the page use character classes, sequence, alternation
    and the greedy quantifiers [*], [+] and [?] applied to one character
    class; the only capture group of each pattern encloses the whole
    pattern, so group 1 is the whole match. *)

Module RegExp.

(** A character class: a union of code-unit ranges, possibly inverted. *)
Record cclass := CClass { ranges : list (N * N); inverted : bool }.

Definition lit (c : N) : cclass := CClass [(c, c)] false.
Definition chars (s : String.string) : list (N * N) :=
  List.map (fun c => (c, c)) (str s).
Definition ch (s : String.string) : N :=
  match str s with c :: _ => c | [] => 0%N end.
Arguments chars s%_string.
Arguments ch s%_string.

Inductive regex :=
| Eps
| Chr (c : cclass)
| Seq (r1 r2 : regex)
| Alt (r1 r2 : regex)
| Star (c : cclass)
| Plus (c : cclass)
| Opt (c : cclass).

(** [Canonicalize] of the [i] flag (without [u]): upper-casing.  Only the
    ASCII letters are folded; this agrees with the language whenever one
    side of the comparison is an ASCII character, since a character
    outside ASCII never canonicalizes into ASCII. *)
Definition canonicalize (c : N) : N :=
  if N.leb 97 c && N.leb c 122 then (c - 32)%N else c.

Fixpoint N_range (lo : N) (n : nat) : list N :=
  match n with
  | O => []
  | S n' => lo :: N_range (N.succ lo) n'
  end.

Definition in_range (ignoreCase : bool) (c : N) (r : N * N) : bool :=
  let (lo, hi) := r in
  if ignoreCase
  then existsb (fun a => N.eqb (canonicalize a) (canonicalize c))
               (N_range lo (N.to_nat (N.succ hi - lo)))
  else N.leb lo c && N.leb c hi.

Definition cmatch (ignoreCase : bool) (cl : cclass) (c : N) : bool :=
  xorb (inverted cl) (existsb (in_range ignoreCase c) (ranges cl)).

Section Matcher.
Variable ignoreCase : bool.

(** The greedy [c*] at [s]: every split of [s] after a run of characters
    of the class, the longest run first. *)
Fixpoint star (cl : cclass) (s : jsstring) : list (jsstring * jsstring) :=
  match s with
  | c :: s' =>
      if cmatch ignoreCase cl c
      then List.map (fun mr => (c :: fst mr, snd mr)) (star cl s') ++ [([], s)]
      else [([], s)]
  | [] => [([], s)]
  end.

(** The backtracking matcher: all the ways [r] matches a prefix of [s],
    as pairs (matched, rest), in the order the engine tries them. *)
Fixpoint matches (r : regex) (s : jsstring) : list (jsstring * jsstring) :=
  match r with
  | Eps => [([], s)]
  | Chr cl =>
      match s with
      | c :: s' => if cmatch ignoreCase cl c then [([c], s')] else []
      | [] => []
      end
  | Seq r1 r2 =>
      flat_map (fun mr1 =>
                  List.map (fun mr2 => (fst mr1 ++ fst mr2, snd mr2))
                           (matches r2 (snd mr1)))
               (matches r1 s)
  | Alt r1 r2 => matches r1 s ++ matches r2 s
  | Star cl => star cl s
  | Plus cl =>
      match s with
      | c :: s' =>
          if cmatch ignoreCase cl c
          then List.map (fun mr => (c :: fst mr, snd mr)) (star cl s')
          else []
      | [] => []
      end
  | Opt cl =>
      match s with
      | c :: s' =>
          if cmatch ignoreCase cl c then [([c], s'); ([], s)] else [([], s)]
      | [] => [([], s)]
      end
  end.

(** The match at the current position: the first success. *)
Definition match_here (r : regex) (s : jsstring) : option (jsstring * jsstring) :=
  match matches r s with
  | mr :: _ => Some mr
  | [] => None
  end.

(** [RegExp.prototype.exec] from index 0 without the [g] flag: the match
    at the leftmost position that has one. *)
Fixpoint exec (r : regex) (s : jsstring) : option jsstring :=
  match match_here r s with
  | Some mr => Some (fst mr)
  | None =>
      match s with
      | [] => None
      | _ :: s' => exec r s'
      end
  end.

(** The successive matches of a [g] pattern.  [skip] counts the
    characters of the last match still to be passed over. *)
Fixpoint match_all (r : regex) (skip : nat) (s : jsstring) : list jsstring :=
  match skip with
  | S k =>
      match s with
      | [] => []
      | _ :: s' => match_all r k s'
      end
  | O =>
      match match_here r s with
      | Some mr =>
          fst mr :: match s with
                    | [] => []
                    | _ :: s' => match_all r (pred (length (fst mr))) s'
                    end
      | None =>
          match s with
          | [] => []
          | _ :: s' => match_all r 0 s'
          end
      end
  end.

(** The loop of [String.prototype.split] with a pattern separator on a
    non-empty string.  [seg] holds, reversed, the characters of the
    segment under construction. *)
Fixpoint split_loop (r : regex) (skip : nat) (seg : jsstring) (s : jsstring)
  : list jsstring :=
  match s with
  | [] => [rev seg]
  | c :: s' =>
      match skip with
      | S k => split_loop r k seg s'
      | O =>
          match match_here r s with
          | None => split_loop r 0 (c :: seg) s'
          | Some mr =>
              match length (fst mr) with
              | O =>
                  match seg with
                  | [] => split_loop r 0 [c] s'
                  | _ :: _ => rev seg :: split_loop r 0 [c] s'
                  end
              | S k => rev seg :: split_loop r k [] s'
              end
          end
      end
  end.

End Matcher.

(** [s.match(r)] for a pattern without flags or with [i] only: group 1. *)
Definition String_match (ignoreCase : bool) (r : regex) (s : jsstring)
  : option jsstring := exec ignoreCase r s.

(** [s.match(r)] for a [g] pattern: [null] when nothing matches. *)
Definition String_match_g (r : regex) (s : jsstring) : option (list jsstring) :=
  match match_all false r 0 s with
  | [] => None
  | l => Some l
  end.

(** [s.split(r)] *)
Definition String_split (r : regex) (s : jsstring) : list jsstring :=
  match s with
  | [] => match match_here false r [] with Some _ => [] | None => [[]] end
  | _ :: _ => split_loop false r 0 [] s
  end.

(** The characters of a string as a pattern that matches them literally,
    which is what escaping the special characters achieves. *)
Fixpoint literal (s : jsstring) : regex :=
  match s with
  | [] => Eps
  | c :: s' => Seq (Chr (lit c)) (literal s')
  end.

End RegExp.

Import RegExp.

(** ** The response formatter *)

(** The bullet marker as the source file spells it. *)
Definition bullet : jsstring := [226; 8364; 162]%N.
Definition bold : jsstring := str "**".
Definition paragraph_break : jsstring := [LF; LF].

(** [\w] *)
Definition word : cclass :=
  CClass [(ch "a", ch "z"); (ch "A", ch "Z"); (ch "0", ch "9"); (ch "_", ch "_")] false.
Definition upper : cclass := CClass [(ch "A", ch "Z")] false.
Definition lower : cclass := CClass [(ch "a", ch "z")] false.
Definition not_dot : cclass := CClass (chars ".") true.
Definition dot : cclass := lit (ch ".").

(** [/[.!?]+/] *)
Definition sentence_end : regex := Plus (CClass (chars ".!?") false).

(** [/(\w+\.com|\w+\.org|\w+\.ai|\w+Face|\w+Net|[A-Z][a-z]+[A-Z][a-z]+)/g] *)
Definition website_pattern : regex :=
  Alt (Seq (Plus word) (literal (str ".com")))
 (Alt (Seq (Plus word) (literal (str ".org")))
 (Alt (Seq (Plus word) (literal (str ".ai")))
 (Alt (Seq (Plus word) (literal (str "Face")))
 (Alt (Seq (Plus word) (literal (str "Net")))
      (Seq (Chr upper) (Seq (Plus lower) (Seq (Chr upper) (Plus lower)))))))).

(** [new RegExp(`([^.]*${escaped site}[^.]*\\.?)`, "i")] *)
Definition site_pattern (site : jsstring) : regex :=
  Seq (Star not_dot) (Seq (literal site) (Seq (Star not_dot) (Opt dot))).

Definition sentences_of (content : jsstring) : list jsstring :=
  filter (fun s => 0 <? length (trim s)) (String_split sentence_end content).

Definition list_header : jsstring := str "I found several great options:" ++ [LF; LF].
Definition list_footer : jsstring :=
  [LF] ++ str "Would you like me to provide more details about any of these options?".

(** One round of the [forEach] over the detected tokens. *)
Definition add_bullet (content formattedContent site : jsstring) : jsstring :=
  match String_match true (site_pattern site) content with
  | Some m =>
      formattedContent ++ bullet ++ str " **" ++ site ++ str "** - "
        ++ trim (replace_empty site m) ++ [LF]
  | None => formattedContent
  end.

Definition split_paragraphs (sentences : list jsstring) : jsstring :=
  let midPoint := length sentences / 2 in
  let firstHalf := join (str ". ") (slice_to midPoint sentences) ++ str "." in
  let secondHalf := join (str ". ") (slice_from midPoint sentences) ++ str "." in
  firstHalf ++ [LF; LF] ++ secondHalf.

Definition formatAIResponse (content : jsstring) : jsstring :=
  if includes bullet content || includes bold content
     || includes paragraph_break content
  then content
  else
    let sentences := sentences_of content in
    if (3 <? length sentences) && (300 <? length content) then
      match String_match_g website_pattern content with
      | Some websiteMatches =>
          if 2 <? length websiteMatches then
            fold_left (add_bullet content) websiteMatches list_header
              ++ list_footer
          else split_paragraphs sentences
      | None => split_paragraphs sentences
      end
    else content.

(** The two conditions the formatter branches on, by name. *)

Definition has_marker (content : jsstring) : bool :=
  includes bullet content || includes bold content
  || includes paragraph_break content.

(** The tokens the scan detects ([null] read as no token). *)
Definition detected_tokens (content : jsstring) : list jsstring :=
  match String_match_g website_pattern content with
  | Some l => l
  | None => []
  end.

(** ** What the synthesized list is expected to be

    The definitions of this part do not come from the code: they say, on
    strings directly and without any pattern, what the list is made of. *)

Definition is_dot (c : N) : bool := N.eqb c (ch ".").

Definition dot_free (s : jsstring) : bool := forallb (fun c => negb (is_dot c)) s.

(** [p] is a prefix of [s] up to the case of ASCII letters. *)
Fixpoint startsWith_ci (p s : jsstring) : bool :=
  match p, s with
  | [], _ => true
  | _ :: _, [] => false
  | x :: p', y :: s' =>
      N.eqb (canonicalize x) (canonicalize y) && startsWith_ci p' s'
  end.

(** The text up to and including the next full stop, or up to the end. *)
Fixpoint through_dot (s : jsstring) : jsstring :=
  match s with
  | [] => []
  | c :: s' => if is_dot c then [c] else c :: through_dot s'
  end.

(** An occurrence of [n] characters at the head of [s], with what follows
    it up to the next full stop. *)
Definition occurrence_onwards (n : nat) (s : jsstring) : jsstring :=
  firstn n s ++ through_dot (skipn n s).

(** The sentence fragment around the first occurrence of a token of [n]
    characters: from just after the last full stop before the occurrence up
    to and including the first full stop after it.  [occurs] tells whether
    the token stands at the head of a string; [before] holds, reversed,
    the characters passed since the last full stop. *)
Fixpoint fragment_around (occurs : jsstring -> bool) (n : nat)
  (before : jsstring) (s : jsstring) : option jsstring :=
  if occurs s then Some (rev before ++ occurrence_onwards n s)
  else match s with
       | [] => None
       | c :: s' =>
           fragment_around occurs n (if is_dot c then [] else c :: before) s'
       end.

(** Around the first occurrence of the token itself. *)
Definition fragment_exact (site content : jsstring) : option jsstring :=
  fragment_around (startsWith site) (length site) [] content.

(** Around the first occurrence of the token in any letter case. *)
Definition fragment_ci (site content : jsstring) : option jsstring :=
  fragment_around (startsWith_ci site) (length site) [] content.

(** A bullet line: the marker, the token in bold, a dash and the body. *)
Definition bullet_line (site body : jsstring) : jsstring :=
  bullet ++ str " **" ++ site ++ str "** - " ++ body ++ [LF].

(** The body made from a fragment: the token removed, the rest trimmed. *)
Definition body_of (fragment : option jsstring) (site : jsstring) : jsstring :=
  match fragment with
  | Some f => trim (replace_empty site f)
  | None => []
  end.

(** The list with one bullet for each token of [tokens], in order. *)
Definition bulleted_list (fragment : jsstring -> option jsstring)
  (tokens : list jsstring) : jsstring :=
  list_header
    ++ concat (List.map (fun site => bullet_line site (body_of (fragment site) site))
                        tokens)
    ++ list_footer.

(** A word character or a full stop. *)
Definition is_token_char (c : N) : bool := cmatch false word c || is_dot c.

(** ** Auxiliary notions for reasoning about the matcher *)

(** The first element of a list on which [f] succeeds. *)
Fixpoint first_some {A B} (f : A -> option B) (l : list A) : option B :=
  match l with
  | [] => None
  | x :: l' =>
      match f x with
      | Some y => Some y
      | None => first_some f l'
      end
  end.

(** A match extended on the left by the characters [m]. *)
Definition extend (m : jsstring) (mr : option (jsstring * jsstring))
  : option (jsstring * jsstring) :=
  option_map (fun mr => (m ++ fst mr, snd mr)) mr.

(** The characters a pattern can consume. *)
Fixpoint chars_of (i : bool) (r : regex) (c : N) : bool :=
  match r with
  | Eps => false
  | Chr cl | Star cl | Plus cl | Opt cl => cmatch i cl c
  | Seq r1 r2 | Alt r1 r2 => chars_of i r1 c || chars_of i r2 c
  end.

(** The text of the first match at the current position. *)
Definition matched (i : bool) (r : regex) (s : jsstring) : option jsstring :=
  option_map fst (match_here i r s).

(** The part of the site pattern after the leading [[^.]*]. *)
Definition site_tail (site : jsstring) : regex :=
  Seq (literal site) (Seq (Star not_dot) (Opt dot)).

(** ** Sample replies *)

(** A reply that mentions a platform first in lower case and later under
    its CamelCase name, and another platform twice. *)
Definition sample_listing : jsstring :=
  str "I compared a few places for you and openai came up again and again in my notes. "
  ++ str "You could start with HuggingFace for models! "
  ++ str "Many people like kaggle.com for data sets? "
  ++ str "The research group OpenAi publishes papers as well. "
  ++ str "Each of these places, HuggingFace included, has a free tier, so you can try them all before you decide which one suits your project best. "
  ++ str "Tell me more about your goals and I will narrow the choice down.".

(** A long reply without any platform name. *)
Definition sample_prose : jsstring :=
  str "The first thing to know is that the weather in the mountains changes quickly. "
  ++ str "Bring warm clothes even in summer! "
  ++ str "A map and a compass are still useful when the phone has no signal? "
  ++ str "Start early in the morning so that you are back before dark. "
  ++ str "Tell somebody where you are going and when you expect to return. "
  ++ str "With these few rules in mind a day in the hills is a pleasure.".

(** ** The message renderer ([MessageContent]) *)

(** What a line of a bot message is shown as; [html] is the text handed
    to the page as markup. *)
Inductive block :=
| Spacer
| BulletRow (html : jsstring)
| Heading (html : jsstring)
| Paragraph (html : jsstring).

(** [s.split(sep)] for a separator of one character.  [seg] holds,
    reversed, the characters of the segment under construction. *)
Fixpoint split_at (sep : N) (seg s : jsstring) : list jsstring :=
  match s with
  | [] => [rev seg]
  | c :: s' =>
      if N.eqb c sep then rev seg :: split_at sep [] s'
      else split_at sep (c :: seg) s'
  end.

(** [content.split("\n")] *)
Definition lines_of (content : jsstring) : list jsstring := split_at LF [] content.

(** [String.prototype.endsWith] *)
Definition endsWith (p s : jsstring) : bool := startsWith (rev p) (rev s).

(** [.]: any character but a line terminator. *)
Definition any_char : cclass := CClass [(10, 10); (13, 13); (8232, 8233)]%N true.

(** The lazy [c*?] at [s]: every split of [s] after a run of characters
    of the class, the shortest run first. *)
Fixpoint star_lazy (i : bool) (cl : cclass) (s : jsstring)
  : list (jsstring * jsstring) :=
  ([], s) ::
  match s with
  | c :: s' =>
      if cmatch i cl c
      then List.map (fun mr => (c :: fst mr, snd mr)) (star_lazy i cl s')
      else []
  | [] => []
  end.

(** [/\*\*(.*?)\*\*/] at the current position: group 1 and the rest of
    the text after the match. *)
Definition bold_span (s : jsstring) : option (jsstring * jsstring) :=
  match
    flat_map (fun opening =>
      flat_map (fun inner =>
        List.map (fun closing => (fst inner, snd closing))
                 (matches false (literal bold) (snd inner)))
        (star_lazy false any_char (snd opening)))
      (matches false (literal bold) s)
  with
  | x :: _ => Some x
  | [] => None
  end.

(** [s.replace(/\*\*(.*?)\*\*/g, ...)], [wrap] giving the replacement
    from group 1.  [skip] counts the characters of the last match still
    to be passed over. *)
Fixpoint replace_bold (wrap : jsstring -> jsstring) (skip : nat) (s : jsstring)
  : jsstring :=
  match s with
  | [] => []
  | c :: s' =>
      match skip with
      | S k => replace_bold wrap k s'
      | O =>
          match bold_span s with
          | Some (inner, rest) =>
              wrap inner ++ replace_bold wrap (length s' - length rest) s'
          | None => c :: replace_bold wrap 0 s'
          end
      end
  end.

(** The replacement ["<strong>$1</strong>"]. *)
Definition strong (inner : jsstring) : jsstring :=
  str "<strong>" ++ inner ++ str "</strong>".

(** The replacement ["$1"]. *)
Definition unwrapped (inner : jsstring) : jsstring := inner.

(** One round of the [map] over the lines. *)
Definition render_line (line : jsstring) : block :=
  if negb (0 <? length (trim line)) then Spacer
  else if startsWith bullet (trim line) then
    BulletRow (replace_bold strong 0 (trim (replace_empty bullet line)))
  else if includes bold line && endsWith bold (trim line) then
    Heading (replace_bold unwrapped 0 line)
  else Paragraph (replace_bold strong 0 line).

Definition MessageContent (content : jsstring) : list block :=
  List.map render_line (lines_of content).

(** ** The tool icons ([getToolIcon]) *)

Inductive icon := Search | Globe | FileText | Database | Zap.

Definition getToolIcon (tool : jsstring) : icon :=
  if includes (str "search") tool then Search
  else if includes (str "scrape") tool then Globe
  else if includes (str "extract") tool then FileText
  else if includes (str "crawl") tool then Database
  else Zap.

(** The characters that end a sentence. *)
Definition is_sentence_end (c : N) : bool :=
  cmatch false (CClass (chars ".!?") false) c.

(** ** The backend locator and the status label *)

Definition getBackendURL (hostname : jsstring) : jsstring :=
  if JsString.eqb hostname (str "localhost") || JsString.eqb hostname (str "127.0.0.1")
  then str "http://localhost:5000"
  else str "https://simple-agent-backend.onrender.com".

(** The label of the header: [hostname === "localhost" ? "Local" : "Online"]. *)
Definition statusLabel (hostname : jsstring) : jsstring :=
  if JsString.eqb hostname (str "localhost") then str "Local" else str "Online".

(** ** Values, errors and the component's state *)

Record js_error := Error { name : jsstring; message : jsstring }.

Inductive result (A : Type) :=
| Ok (a : A)
| Throw (e : js_error).
Arguments Ok {A} a.
Arguments Throw {A} e.

(** What makes the engine raise a [TypeError]. *)
Inductive type_error_cause :=
| ReadOfNullish (property : jsstring)
| NotAFunction (callee : jsstring).

Inductive role := user | bot.

Section Component.

(** The numbers of the language and the two primitives the page applies
    to values it does not control: [ToBoolean] on a number, and the
    comparison [v > 0] on an arbitrary value.  The text of the engine's
    [TypeError] messages is the engine's own. *)
Variable number : Type.
Variable number_truthy : number -> bool.
Variable engine_message : type_error_cause -> jsstring.

#[warnings="-register-all"]
Inductive value :=
| VUndefined
| VNull
| VBool (b : bool)
| VNum (n : number)
| VStr (s : jsstring)
| VArr (l : list value)
| VObj (fields : list (jsstring * value)).

Variable greater_than_zero : value -> bool.

Definition TypeError (c : type_error_cause) : js_error :=
  Error (str "TypeError") (engine_message c).

(** [new Error(msg)] *)
Definition new_Error (msg : jsstring) : js_error := Error (str "Error") msg.

Fixpoint lookup (k : jsstring) (fields : list (jsstring * value)) : value :=
  match fields with
  | [] => VUndefined
  | (k', v) :: rest => if JsString.eqb k k' then v else lookup k rest
  end.

(** [v.k] for the property names [ai_message], [tool_calls], [tools] and
    [name], which only a plain object can carry. *)
Definition Get (v : value) (k : jsstring) : result value :=
  match v with
  | VUndefined | VNull => Throw (TypeError (ReadOfNullish k))
  | VObj fields => Ok (lookup k fields)
  | _ => Ok VUndefined
  end.

Definition ToBoolean (v : value) : bool :=
  match v with
  | VUndefined | VNull => false
  | VBool b => b
  | VNum n => number_truthy n
  | VStr s => negb (JsString.eqb s [])
  | VArr _ | VObj _ => true
  end.

Definition Array_isArray (v : value) : bool :=
  match v with
  | VArr _ => true
  | _ => false
  end.

(** The elements of an array. *)
Definition elements (v : value) : list value :=
  match v with
  | VArr l => l
  | _ => []
  end.

(** [a || b] *)
Definition or_else (a b : value) : value := if ToBoolean a then a else b.

Record chat_message := Message {
  id : Z;
  type : role;
  content : value;
  timestamp : jsstring;
  toolsUsed : option (list value)
}.

Record state := State {
  messages : list chat_message;
  inputValue : jsstring;
  isLoading : bool;
  availableTools : list value;
  toolsLoading : bool;
  toolsError : option jsstring
}.

(** [Date.now()] and [new Date().toLocaleTimeString()] at one moment. *)
Record clock := Clock { now : Z; localeTime : jsstring }.

(** What a [fetch] settles to: a rejection, or a response whose [json()]
    resolves to a value or rejects. *)
Inductive fetch_outcome :=
| Rejected (e : js_error)
| Response (ok : bool) (status : N) (body : result value).

(** *** Commands over the state, with exceptions *)

Definition M (A : Type) : Type := state -> result A * state.

Definition ret {A} (a : A) : M A := fun st => (Ok a, st).
Definition throw {A} (e : js_error) : M A := fun st => (Throw e, st).
Definition bind {A B} (m : M A) (f : A -> M B) : M B :=
  fun st => match m st with
            | (Ok a, st') => f a st'
            | (Throw e, st') => (Throw e, st')
            end.
Definition lift {A} (r : result A) : M A := fun st => (r, st).
Definition try_catch {A} (body : M A) (handler : js_error -> M A) : M A :=
  fun st => match body st with
            | (Ok a, st') => (Ok a, st')
            | (Throw e, st') => handler e st'
            end.
Definition finally {A} (body : M A) (final : M unit) : M A :=
  fun st => match body st with
            | (r, st') =>
                match final st' with
                | (Ok _, st'') => (r, st'')
                | (Throw e, st'') => (Throw e, st'')
                end
            end.

Notation "x <- m ;; k" := (bind m (fun x => k))
  (at level 61, m at next level, right associativity).
Notation "m ;;; k" := (bind m (fun _ => k))
  (at level 61, right associativity).

Definition setMessages (f : list chat_message -> list chat_message) : M unit :=
  fun st => (Ok tt, State (f (messages st)) (inputValue st) (isLoading st)
                          (availableTools st) (toolsLoading st) (toolsError st)).
Definition setInputValue (v : jsstring) : M unit :=
  fun st => (Ok tt, State (messages st) v (isLoading st)
                          (availableTools st) (toolsLoading st) (toolsError st)).
Definition setIsLoading (b : bool) : M unit :=
  fun st => (Ok tt, State (messages st) (inputValue st) b
                          (availableTools st) (toolsLoading st) (toolsError st)).
Definition setAvailableTools (l : list value) : M unit :=
  fun st => (Ok tt, State (messages st) (inputValue st) (isLoading st)
                          l (toolsLoading st) (toolsError st)).
Definition setToolsLoading (b : bool) : M unit :=
  fun st => (Ok tt, State (messages st) (inputValue st) (isLoading st)
                          (availableTools st) b (toolsError st)).
Definition setToolsError (e : option jsstring) : M unit :=
  fun st => (Ok tt, State (messages st) (inputValue st) (isLoading st)
                          (availableTools st) (toolsLoading st) e).

Fixpoint mapM {A B} (f : A -> result B) (l : list A) : result (list B) :=
  match l with
  | [] => Ok []
  | x :: l' =>
      match f x with
      | Throw e => Throw e
      | Ok y => match mapM f l' with
                | Throw e => Throw e
                | Ok ys => Ok (y :: ys)
                end
      end
  end.

(** *** The formatter applied to whatever [ai_message] holds

    A string is formatted.  An array has [includes] but no [split];
    anything else has no [includes]. *)
Definition is_string (s : jsstring) (v : value) : bool :=
  match v with
  | VStr s' => JsString.eqb s s'
  | _ => false
  end.

Definition formatAIResponse_value (content : value) : result value :=
  match content with
  | VStr s => Ok (VStr (formatAIResponse s))
  | VArr l =>
      if existsb (is_string bullet) l || existsb (is_string bold) l
         || existsb (is_string paragraph_break) l
      then Ok content
      else Throw (TypeError (NotAFunction (str "content.split")))
  | VUndefined | VNull => Throw (TypeError (ReadOfNullish (str "includes")))
  | _ => Throw (TypeError (NotAFunction (str "content.includes")))
  end.

(** *** fetchAvailableTools *)

Definition fallback_tools : list value :=
  [ VStr (str "firecrawl_scrape");
    VStr (str "firecrawl_map");
    VStr (str "firecrawl_crawl");
    VStr (str "firecrawl_check_crawl_status");
    VStr (str "firecrawl_search");
    VStr (str "firecrawl_extract");
    VStr (str "firecrawl_deep_research");
    VStr (str "firecrawl_generate_llmstxt") ].

(** [`${n}`] for a status code. *)
Definition decimal (n : N) : jsstring :=
  str (DecimalString.NilZero.string_of_uint (N.to_uint n)).

Definition http_error (status : N) : js_error :=
  new_Error (str "HTTP error! status: " ++ decimal status).

(** The part before the request is issued. *)
Definition fetchAvailableTools_start : M unit :=
  setToolsLoading true ;;; setToolsError None.

(** The whole operation, given what the request settles to. *)
Definition fetchAvailableTools (o : fetch_outcome) : M unit :=
  finally
    (try_catch
       (fetchAvailableTools_start ;;;
        match o with
        | Rejected e => throw e
        | Response ok status body =>
            if negb ok then throw (http_error status)
            else
              data <- lift body ;;
              tools <- lift (Get data (str "tools")) ;;
              if ToBoolean tools && Array_isArray tools
              then setAvailableTools (elements tools)
              else throw (new_Error (str "Invalid tools data format"))
        end)
       (fun error =>
          setToolsError (Some (message error)) ;;;
          setAvailableTools fallback_tools))
    (setToolsLoading false).

(** *** handleSubmit *)

Definition placeholder : jsstring := str "(No direct textual response)".

(** The opening of every error message, as the source file spells it. *)
Definition error_header : jsstring :=
  [226; 353; 160; 239; 184]%N ++ str " **Connection Error**" ++ [LF; LF].

Definition timeout_text : jsstring :=
  str "Request timed out. The server might be busy." ++ [LF]
  ++ bullet ++ str " Try a simpler question" ++ [LF]
  ++ bullet ++ str " Wait a moment and try again" ++ [LF]
  ++ bullet ++ str " Check your internet connection".

Definition starting_text : jsstring :=
  str "The AI service is starting up." ++ [LF]
  ++ bullet ++ str " Please wait 30-60 seconds" ++ [LF]
  ++ bullet ++ str " Try your request again" ++ [LF]
  ++ bullet ++ str " The service should be ready shortly".

Definition network_text : jsstring :=
  str "Network connection issue." ++ [LF]
  ++ bullet ++ str " Check your internet connection" ++ [LF]
  ++ bullet ++ str " The server might be temporarily unavailable" ++ [LF]
  ++ bullet ++ str " Try again in a few moments".

Definition other_text (msg : jsstring) : jsstring :=
  str "Sorry, I couldn't process your request:" ++ [LF]
  ++ bullet ++ str " " ++ msg ++ [LF]
  ++ bullet ++ str " Please try again in a moment".

(** The error thrown for a response that is not ok. *)
Definition status_error (status : N) : js_error :=
  if N.eqb status 503 then
    new_Error (str "Service is starting up. Please wait a moment and try again.")
  else if N.leb 500 status then
    new_Error (str "Server error. Please try again later.")
  else if N.eqb status 404 then
    new_Error (str "Service not found. Please check the backend URL.")
  else http_error status.

(** The text the [catch] block builds. *)
Definition errorMessage (error : js_error) : jsstring :=
  error_header ++
  (if JsString.eqb (name error) (str "AbortError") then timeout_text
   else if includes (str "Service is starting up") (message error) then starting_text
   else if includes (str "Failed to fetch") (message error)
           || includes (str "NetworkError") (message error)
   then network_text
   else other_text (message error)).

(** [v.length > 0] *)
Definition length_gt_zero (v : value) : bool :=
  match v with
  | VStr s => 0 <? length s
  | VArr l => 0 <? length l
  | VObj fields => greater_than_zero (lookup (str "length") fields)
  | _ => false
  end.

(** The tool names read off [data.tool_calls]. *)
Definition toolsUsedByBot (tool_calls : value) : result (list value) :=
  if ToBoolean tool_calls && length_gt_zero tool_calls then
    match tool_calls with
    | VArr l => mapM (fun tc => Get tc (str "name")) l
    | _ => Throw (TypeError (NotAFunction (str "data.tool_calls.map")))
    end
  else Ok [].

(** The request handed to [fetch]. *)
Record request := Request {
  url : jsstring;
  body_message : value;
  body_history : list (role * value)
}.

(** The part that runs at once: the guard, the user message, and the
    request.  [render] holds the values the handler closed over. *)
Definition handleSubmit_start (hostname : jsstring) (render : state) (t : clock)
  : M (option request) :=
  if negb (ToBoolean (VStr (trim (inputValue render)))) || isLoading render
  then ret None
  else
    let userMessage :=
      Message (now t) user (VStr (inputValue render)) (localeTime t) None in
    setMessages (fun prev => prev ++ [userMessage]) ;;;
    setInputValue [] ;;;
    setIsLoading true ;;;
    let historyToSend :=
      List.map (fun msg => (type msg, content msg)) (messages render) in
    ret (Some (Request (getBackendURL hostname ++ str "/chat")
                       (content userMessage) historyToSend)).

(** The part that runs when the request settles. *)
Definition handleSubmit_settle (o : fetch_outcome) (t : clock) : M unit :=
  finally
    (try_catch
       (data <- match o with
                | Rejected e => throw e
                | Response ok status body =>
                    if negb ok then throw (status_error status) else lift body
                end ;;
        ai_message <- lift (Get data (str "ai_message")) ;;
        let botMessageContent := or_else ai_message (VStr placeholder) in
        tool_calls <- lift (Get data (str "tool_calls")) ;;
        toolsUsed <- lift (toolsUsedByBot tool_calls) ;;
        formattedContent <- lift (formatAIResponse_value botMessageContent) ;;
        setMessages (fun prev =>
          prev ++ [Message (now t + 1) bot formattedContent (localeTime t)
                           (Some toolsUsed)]))
       (fun error =>
          setMessages (fun prev =>
            prev ++ [Message (now t + 1) bot (VStr (errorMessage error))
                             (localeTime t) None])))
    (setIsLoading false).

(** One send from beginning to end. *)
Definition handleSubmit (hostname : jsstring) (render : state) (t0 : clock)
  (o : fetch_outcome) (t1 : clock) : M (option request) :=
  r <- handleSubmit_start hostname render t0 ;;
  match r with
  | None => ret None
  | Some req => handleSubmit_settle o t1 ;;; ret (Some req)
  end.

(** *** The failure categories of the specification

    The definitions of this part do not come from the code: they name the
    categories, say which failure belongs to which, and write out what
    the user is told for each. *)




Definition failed (o : fetch_outcome) : bool :=
  match o with
  | Rejected _ => true
  | Response ok _ (Ok _) => negb ok
  | Response _ _ (Throw _) => true
  end.





(** A tool-call record and its [name] field. *)
Definition is_record (v : value) : bool :=
  match v with
  | VObj _ => true
  | _ => false
  end.

Definition name_field (tc : value) : value :=
  match tc with
  | VObj fields => lookup (str "name") fields
  | _ => VUndefined
  end.

(** A reply field that is text, [null] or absent. *)
Definition textual_or_absent (v : value) : bool :=
  match v with
  | VUndefined | VNull | VStr _ => true
  | _ => false
  end.

(** [tool_calls] as the response contract has it: absent, [null], or a
    list of records. *)
Definition well_formed_tool_calls (v : value) : bool :=
  match v with
  | VUndefined | VNull => true
  | VArr l => forallb is_record l
  | _ => false
  end.

(** The names of the tool calls, in the order of the list. *)
Definition tool_names (v : value) : list value :=
  match v with
  | VArr l => List.map name_field l
  | _ => []
  end.


(** The state with one more message and the given loading flag. *)
Definition with_message (st : state) (m : chat_message) (loading : bool) : state :=
  State (messages st ++ [m]) (inputValue st) loading
        (availableTools st) (toolsLoading st) (toolsError st).


(** The state at mount: the welcome message, an empty input, nothing in
    flight, and the tools still to be fetched. *)
Definition initial_state (t : clock) : state :=
  State [Message 1 bot
           (VStr (str "Hello! I'm your AI agent powered by Gemini LLM and Firecrawl tools. I can help you search the web, scrape content, extract data, and provide intelligent responses. What would you like to know?"))
           (localeTime t) None]
        [] false [] true None.

(** The state once the user has typed a question. *)
Definition typed_state (t : clock) (text : jsstring) : state :=
  State (messages (initial_state t)) text false [] false None.

(** The body the test suite's chat endpoint answers with. *)
Definition sample_reply : list (jsstring * value) :=
  [ (str "ai_message", VStr (str "This is a test AI response."));
    (str "tool_calls",
     VArr [VObj [(str "name", VStr (str "firecrawl_search"))]]) ].

(** A stand-in for the engine in the examples: every number is truthy,
    no coerced value is greater than zero, and a [TypeError] says what
    failed. *)
Definition every_number_truthy (n : number) : bool := true.
Definition never_greater_than_zero (v : value) : bool := false.
Definition plain_message (c : type_error_cause) : jsstring :=
  match c with
  | ReadOfNullish p => str "Cannot read properties of null: " ++ p
  | NotAFunction f => f ++ str " is not a function"
  end.

(** The state and the response of the test suite's send. *)
Definition hello_state : state := typed_state (Clock 0 []) (str "Hello AI!").
Definition test_response : fetch_outcome :=
  Response true 200 (Ok (VObj sample_reply)).

(** Replies that break the contract: a [null] among the tool calls, an
    array for the text, a number among the tools. *)
Definition reply_with_null_call : list (jsstring * value) :=
  [ (str "ai_message", VStr (str "Done."));
    (str "tool_calls",
     VArr [VObj [(str "name", VStr (str "firecrawl_search"))]; VNull]) ].
Definition reply_with_array_text : list (jsstring * value) :=
  [ (str "ai_message", VArr [VStr (str "**")]) ].
Definition tools_with_number (n : number) : list (jsstring * value) :=
  [ (str "tools", VArr [VStr (str "firecrawl_search"); VNum n]) ].

(** *** What the page shows *)

(** [getToolIcon] on whatever the tool list holds: a string is searched,
    an array is asked for an element, anything else has no [includes]. *)
Definition getToolIcon_value (tool : value) : result icon :=
  match tool with
  | VStr s => Ok (getToolIcon s)
  | VArr l =>
      Ok (if existsb (is_string (str "search")) l then Search
          else if existsb (is_string (str "scrape")) l then Globe
          else if existsb (is_string (str "extract")) l then FileText
          else if existsb (is_string (str "crawl")) l then Database
          else Zap)
  | VUndefined | VNull => Throw (TypeError (ReadOfNullish (str "includes")))
  | _ => Throw (TypeError (NotAFunction (str "tool.includes")))
  end.

(** The chips of a tool list: each tool with its icon. *)
Definition tool_chips (tools : list value) : result (list (icon * value)) :=
  mapM (fun tool =>
          match getToolIcon_value tool with
          | Ok i => Ok (i, tool)
          | Throw e => Throw e
          end) tools.

(** The content of the tools panel: the loading text, or the chips in the
    fallback style or the usual one. *)
Inductive tools_panel :=
| LoadingTools
| ToolChips (fallback_style : bool) (chips : list (icon * value)).

(** What [renderToolsSection] shows: the two indicators of the trigger
    and the panel. *)
Record tools_section := ToolsSection {
  connecting : bool;
  fallback_notice : bool;
  panel : tools_panel
}.

Definition renderToolsSection (st : state) : result tools_section :=
  let error := match toolsError st with
               | Some (_ :: _) => true
               | _ => false
               end in
  match (if toolsLoading st then Ok LoadingTools
         else match tool_chips (availableTools st) with
              | Ok chips => Ok (ToolChips error chips)
              | Throw e => Throw e
              end) with
  | Ok p => Ok (ToolsSection (toolsLoading st)
                             (error && negb (toolsLoading st)) p)
  | Throw e => Throw e
  end.

(** The body of a message card: a bot message goes through
    [MessageContent], a user message is shown as text. *)
Inductive message_body :=
| Blocks (l : list block)
| PlainText (text : value).

Definition render_message_body (m : chat_message) : result message_body :=
  match type m with
  | bot =>
      match content m with
      | VStr s => Ok (Blocks (MessageContent s))
      | VUndefined | VNull => Throw (TypeError (ReadOfNullish (str "split")))
      | _ => Throw (TypeError (NotAFunction (str "content.split")))
      end
  | user => Ok (PlainText (content m))
  end.

(** [message.toolsUsed && message.toolsUsed.length > 0] *)
Definition shows_tools_used (m : chat_message) : bool :=
  match toolsUsed m with
  | Some (_ :: _) => true
  | _ => false
  end.

(** The send button's [disabled] and the input's [disabled]. *)
Definition send_disabled (st : state) : bool :=
  negb (ToBoolean (VStr (trim (inputValue st)))) || isLoading st.
Definition input_disabled (st : state) : bool := isLoading st.

(** *** The events of a session

    What can happen to the state: the input changes, a submit is asked
    for (by a handler that closed over [render]), a chat request settles,
    the tools are fetched. *)
Inductive event :=
| InputChanged (text : jsstring)
| SubmitAsked (hostname : jsstring) (render : state) (t : clock)
| ChatSettled (o : fetch_outcome) (t : clock)
| ToolsFetched (o : fetch_outcome).

Definition react (st : state) (e : event) : state :=
  match e with
  | InputChanged text => snd (setInputValue text st)
  | SubmitAsked hostname render t => snd (handleSubmit_start hostname render t st)
  | ChatSettled o t => snd (handleSubmit_settle o t st)
  | ToolsFetched o => snd (fetchAvailableTools o st)
  end.

Definition session (events : list event) (st : state) : state :=
  fold_left react events st.

Ltac run :=
  unfold handleSubmit, handleSubmit_start, handleSubmit_settle,
    fetchAvailableTools, fetchAvailableTools_start,
    finally, try_catch, bind, lift, throw, ret,
    setMessages, setInputValue, setIsLoading,
    setAvailableTools, setToolsLoading, setToolsError, with_message;
  simpl.

(** ** Properties *)

(** *** Strings *)

Lemma eqb_refl (a : jsstring) : JsString.eqb a a = true.
Proof.
  induction a as [|x a IH]; simpl; [reflexivity|].
  now rewrite N.eqb_refl, IH.
Qed.

Lemma eqb_eq (a b : jsstring) : JsString.eqb a b = true <-> a = b.
Proof.
  split; [|intros ->; apply eqb_refl].
  revert b; induction a as [|x a IH]; intros [|y b]; simpl; try discriminate; auto.
  intros H. apply andb_true_iff in H as [Hx Hr].
  apply N.eqb_eq in Hx. apply IH in Hr. now subst.
Qed.

Lemma eqb_neq (a b : jsstring) : JsString.eqb a b = false <-> a <> b.
Proof.
  split.
  - intros H E. apply eqb_eq in E. congruence.
  - intros H. destruct (JsString.eqb a b) eqn:E; [|reflexivity].
    apply eqb_eq in E. contradiction.
Qed.

(** A needle whose first character is absent from a string is not
    included in it. *)
Lemma includes_absent_head (c : N) (p s : jsstring) :
  ~ In c s -> includes (c :: p) s = false.
Proof.
  induction s as [|y s IH]; intros Hn; simpl; [reflexivity|].
  rewrite IH by (intros Hin; apply Hn; now right).
  destruct (N.eqb c y) eqn:E; [|reflexivity].
  apply N.eqb_eq in E. exfalso. apply Hn. now left.
Qed.



(** *** The backend locator *)

(** C7, as amended: the base URL is the local one for [localhost] and
    [127.0.0.1] and the production one for every other hostname; the label
    is "Local" for [localhost] and "Online" for every other hostname, and
    a hostname other than [localhost] and [127.0.0.1] gets "Online"
    together with the production base URL. *)
Theorem backend_and_label_by_hostname (hostname : jsstring) :
  (hostname = str "localhost" \/ hostname = str "127.0.0.1" ->
   getBackendURL hostname = str "http://localhost:5000") /\
  (hostname <> str "localhost" -> hostname <> str "127.0.0.1" ->
   getBackendURL hostname = str "https://simple-agent-backend.onrender.com") /\
  (hostname = str "localhost" -> statusLabel hostname = str "Local") /\
  (hostname <> str "localhost" -> statusLabel hostname = str "Online") /\
  (hostname <> str "localhost" -> hostname <> str "127.0.0.1" ->
   statusLabel hostname = str "Online" /\
   getBackendURL hostname = str "https://simple-agent-backend.onrender.com").
Proof.
  assert (Hprod : hostname <> str "localhost" -> hostname <> str "127.0.0.1" ->
                  getBackendURL hostname
                  = str "https://simple-agent-backend.onrender.com").
  { intros H1 H2. unfold getBackendURL.
    apply eqb_neq in H1, H2. now rewrite H1, H2. }
  assert (Honline : hostname <> str "localhost" ->
                    statusLabel hostname = str "Online").
  { intros H1. unfold statusLabel. apply eqb_neq in H1. now rewrite H1. }
  repeat split; auto.
  - intros [-> | ->]; reflexivity.
  - intros ->; reflexivity.
Qed.

(** C7, the claim as stated fails: [127.0.0.1] is a hostname other than
    [localhost], its label is "Online", and its base URL is not the
    production one. *)
Lemma loopback_address_online_but_local :
  str "127.0.0.1" <> str "localhost" /\
  statusLabel (str "127.0.0.1") = str "Online" /\
  getBackendURL (str "127.0.0.1") = str "http://localhost:5000" /\
  getBackendURL (str "127.0.0.1") <> str "https://simple-agent-backend.onrender.com".
Proof.
  repeat split; try reflexivity; intros H; discriminate H.
Qed.

(** *** The chat session controller *)

Lemma trim_truthy (s : jsstring) :
  ToBoolean (VStr (trim s)) = false <-> trim s = [].
Proof.
  simpl. destruct (trim s); simpl; split; congruence.
Qed.

(** C3: a send whose input is empty after trimming, or that is submitted
    while the loading flag is set, changes nothing in the state (the
    message log and the input value included) and issues no request. *)
Theorem handleSubmit_blocked_is_noop
  (hostname : jsstring) (render : state) (t0 t1 : clock) (o : fetch_outcome)
  (st : state) :
  trim (inputValue render) = [] \/ isLoading render = true ->
  handleSubmit_start hostname render t0 st = (Ok None, st) /\
  handleSubmit hostname render t0 o t1 st = (Ok None, st).
Proof.
  intros H.
  assert (G : negb (ToBoolean (VStr (trim (inputValue render))))
              || isLoading render = true).
  { destruct H as [H | H].
    - apply trim_truthy in H. now rewrite H.
    - rewrite H. apply orb_true_r. }
  unfold handleSubmit, handleSubmit_start, bind. rewrite G. split; reflexivity.
Qed.

(** Whatever the request settles to, the second part of a send appends
    one bot message and clears the loading flag. *)
Lemma settle_appends_one_bot_message (o : fetch_outcome) (t : clock) (cur : state) :
  exists m, handleSubmit_settle o t cur = (Ok tt, with_message cur m false)
            /\ type m = bot.
Proof.
  run.
  destruct o as [e | ok status [data | e]]; simpl;
    try (destruct ok; simpl); try (eexists; split; reflexivity).
  destruct (Get data (str "ai_message")) as [ai | e]; simpl;
    try (eexists; split; reflexivity).
  destruct (Get data (str "tool_calls")) as [tc | e]; simpl;
    try (eexists; split; reflexivity).
  destruct (toolsUsedByBot tc) as [tools | e]; simpl;
    try (eexists; split; reflexivity).
  destruct (formatAIResponse_value (or_else ai (VStr placeholder))) as [c | e];
    simpl; eexists; split; reflexivity.
Qed.

(** C1: with an input that is not empty after trimming and no send in
    flight, the first part of a send appends one user message, empties the
    input, sets the loading flag and issues the request; whatever the
    request settles to, the second part appends one bot message and
    clears the loading flag; the log grows by two. *)
Theorem handleSubmit_appends_user_then_bot
  (hostname : jsstring) (st : state) (t0 t1 : clock) (o : fetch_outcome) :
  trim (inputValue st) <> [] ->
  isLoading st = false ->
  exists req userMessage botMessage,
    let st1 := State (messages st ++ [userMessage]) [] true
                     (availableTools st) (toolsLoading st) (toolsError st) in
    handleSubmit_start hostname st t0 st = (Ok (Some req), st1)
    /\ type userMessage = user
    /\ content userMessage = VStr (inputValue st)
    /\ (forall cur, exists m,
          handleSubmit_settle o t1 cur = (Ok tt, with_message cur m false)
          /\ type m = bot)
    /\ handleSubmit hostname st t0 o t1 st
       = (Ok (Some req), with_message st1 botMessage false)
    /\ type botMessage = bot
    /\ messages (snd (handleSubmit hostname st t0 o t1 st))
       = messages st ++ [userMessage; botMessage]
    /\ length (messages (snd (handleSubmit hostname st t0 o t1 st)))
       = length (messages st) + 2
    /\ isLoading (snd (handleSubmit hostname st t0 o t1 st)) = false.
Proof.
  intros Hin Hload.
  assert (G : negb (ToBoolean (VStr (trim (inputValue st)))) || isLoading st = false).
  { rewrite Hload, orb_false_r.
    destruct (ToBoolean (VStr (trim (inputValue st)))) eqn:E; [reflexivity|].
    apply trim_truthy in E. contradiction. }
  set (userMessage := Message (now t0) user (VStr (inputValue st)) (localeTime t0) None).
  set (st1 := State (messages st ++ [userMessage]) [] true
                    (availableTools st) (toolsLoading st) (toolsError st)).
  destruct (settle_appends_one_bot_message o t1 st1) as [botMessage [Hs Hb]].
  eexists _, userMessage, botMessage.
  assert (Hstart : handleSubmit_start hostname st t0 st
                   = (Ok (Some (Request (getBackendURL hostname ++ str "/chat")
                                        (VStr (inputValue st))
                                        (List.map (fun msg => (type msg, content msg))
                                                  (messages st)))), st1)).
  { unfold handleSubmit_start. rewrite G. reflexivity. }
  assert (Hall : handleSubmit hostname st t0 o t1 st
                 = (Ok (Some (Request (getBackendURL hostname ++ str "/chat")
                                      (VStr (inputValue st))
                                      (List.map (fun msg => (type msg, content msg))
                                                (messages st)))),
                    with_message st1 botMessage false)).
  { unfold handleSubmit, bind at 1. rewrite Hstart.
    unfold bind. rewrite Hs. reflexivity. }
  cbv zeta. fold st1.
  split; [exact Hstart|].
  split; [reflexivity|].
  split; [reflexivity|].
  split; [intros cur; apply settle_appends_one_bot_message|].
  split; [exact Hall|].
  split; [exact Hb|].
  rewrite Hall. simpl. rewrite <- app_assoc. simpl.
  split; [reflexivity|].
  split; [|reflexivity].
  rewrite length_app. simpl. lia.
Qed.

(** *** The tool directory client *)


(** *** Replies *)

Lemma names_of_records (l : list value) :
  forallb is_record l = true ->
  mapM (fun tc => Get tc (str "name")) l = Ok (List.map name_field l).
Proof.
  induction l as [|tc l IH]; simpl; [reflexivity|].
  intros H. apply andb_true_iff in H as [Hr Hl].
  destruct tc; try discriminate. simpl. now rewrite IH.
Qed.

Lemma toolsUsedByBot_well_formed (tc : value) :
  well_formed_tool_calls tc = true ->
  toolsUsedByBot tc = Ok (tool_names tc).
Proof.
  destruct tc as [| | b | n | s | l | fields]; simpl; try discriminate;
    try reflexivity.
  intros H. unfold toolsUsedByBot. simpl.
  destruct l as [|x l]; [reflexivity|].
  now apply names_of_records.
Qed.

Lemma placeholder_unchanged : formatAIResponse placeholder = placeholder.
Proof. vm_compute. reflexivity. Qed.

(** The text of a reply: the field when it is a non-empty string, the
    placeholder otherwise. *)
Lemma format_textual_reply (ai : value) :
  textual_or_absent ai = true ->
  formatAIResponse_value (or_else ai (VStr placeholder))
  = Ok (VStr (formatAIResponse
                (match ai with
                 | VStr (c :: s) => c :: s
                 | _ => placeholder
                 end))).
Proof.
  destruct ai as [| | b | n | s | l | fields]; simpl; try discriminate;
    try reflexivity.
  destruct s; reflexivity.
Qed.

(** C9: for an ok response whose body carries a textual (or no) reply and
    a well-formed [tool_calls], the bot message's [toolsUsed] is the list
    of the [name] fields of the tool-call records, in the order of the
    list and with duplicates kept; it is empty when [tool_calls] is absent
    or empty. *)
Theorem toolsUsed_are_names_in_order
  (status : N) (fields : list (jsstring * value)) (t : clock) (cur : state) :
  textual_or_absent (lookup (str "ai_message") fields) = true ->
  well_formed_tool_calls (lookup (str "tool_calls") fields) = true ->
  exists m,
    handleSubmit_settle (Response true status (Ok (VObj fields))) t cur
    = (Ok tt, with_message cur m false)
    /\ type m = bot
    /\ toolsUsed m = Some (tool_names (lookup (str "tool_calls") fields))
    /\ (forall calls, lookup (str "tool_calls") fields = VArr calls ->
        toolsUsed m = Some (List.map name_field calls))
    /\ (lookup (str "tool_calls") fields = VUndefined
        \/ lookup (str "tool_calls") fields = VArr [] ->
        toolsUsed m = Some []).
Proof.
  intros Hai Htc. run.
  rewrite (toolsUsedByBot_well_formed _ Htc). simpl.
  rewrite (format_textual_reply _ Hai). simpl.
  eexists. split; [reflexivity|]. simpl.
  repeat split.
  - intros calls ->. reflexivity.
  - intros [-> | ->]; reflexivity.
Qed.

(** C10: for an ok response whose body has a well-formed [tool_calls] and
    whose [ai_message] is absent, [null] or the empty string, the bot
    message's content is the placeholder text, which the formatter leaves
    as it is. *)
Theorem missing_reply_gets_placeholder
  (status : N) (fields : list (jsstring * value)) (t : clock) (cur : state) :
  lookup (str "ai_message") fields = VUndefined
  \/ lookup (str "ai_message") fields = VNull
  \/ lookup (str "ai_message") fields = VStr [] ->
  well_formed_tool_calls (lookup (str "tool_calls") fields) = true ->
  exists m,
    handleSubmit_settle (Response true status (Ok (VObj fields))) t cur
    = (Ok tt, with_message cur m false)
    /\ type m = bot
    /\ content m = VStr (str "(No direct textual response)")
    /\ formatAIResponse (str "(No direct textual response)")
       = str "(No direct textual response)".
Proof.
  intros Hai Htc. run.
  rewrite (toolsUsedByBot_well_formed _ Htc). simpl.
  assert (E : formatAIResponse_value
                (or_else (lookup (str "ai_message") fields) (VStr placeholder))
              = Ok (VStr placeholder)).
  { destruct Hai as [-> | [-> | ->]]; simpl; now rewrite placeholder_unchanged. }
  rewrite E. simpl.
  eexists. split; [reflexivity|]. simpl.
  repeat split.
Qed.

(** *** Failures *)







(** *** Sessions *)

(** The bot message a settled request adds depends on what the request
    settled to and on the clock, not on the state. *)
Lemma settle_message (o : fetch_outcome) (t : clock) :
  exists m, type m = bot
            /\ forall cur, handleSubmit_settle o t cur
                           = (Ok tt, with_message cur m false).
Proof.
  unfold handleSubmit_settle, finally, try_catch, bind, lift, throw,
    setMessages, setIsLoading, with_message.
  destruct o as [e | ok status [data | e]]; simpl;
    try (destruct ok; simpl);
    try (eexists; split; [|intros cur; reflexivity]; reflexivity).
  destruct (Get data (str "ai_message")) as [ai | e]; simpl;
    try (eexists; split; [|intros cur; reflexivity]; reflexivity).
  destruct (Get data (str "tool_calls")) as [tc | e]; simpl;
    try (eexists; split; [|intros cur; reflexivity]; reflexivity).
  destruct (toolsUsedByBot tc) as [tools | e]; simpl;
    try (eexists; split; [|intros cur; reflexivity]; reflexivity).
  destruct (formatAIResponse_value (or_else ai (VStr placeholder))) as [c | e];
    simpl; eexists; (split; [|intros cur; reflexivity]); reflexivity.
Qed.

(** What a tools fetch leaves in the tool list and the error depends on
    what the request settled to, not on the state. *)
Lemma fetched_tools (o : fetch_outcome) :
  exists tools error,
    forall st, fetchAvailableTools o st
               = (Ok tt, State (messages st) (inputValue st) (isLoading st)
                               tools false error).
Proof.
  unfold fetchAvailableTools, fetchAvailableTools_start, finally, try_catch,
    bind, lift, throw, setAvailableTools, setToolsLoading, setToolsError.
  destruct o as [e | ok status [data | e]]; simpl;
    try (destruct ok; simpl);
    try (eexists _, _; intros st; reflexivity).
  destruct (Get data (str "tools")) as [tools | e]; simpl;
    try (eexists _, _; intros st; reflexivity).
  destruct (ToBoolean tools && Array_isArray tools); simpl;
    eexists _, _; intros st; reflexivity.
Qed.

Lemma react_appends (st : state) (e : event) :
  exists added, messages (react st e) = messages st ++ added
                /\ length added <= 1.
Proof.
  destruct e as [text | hostname render t | o t | o]; simpl.
  - exists []. rewrite app_nil_r. auto.
  - unfold handleSubmit_start.
    destruct (negb (ToBoolean (VStr (trim (inputValue render)))) || isLoading render).
    + exists []. simpl. rewrite app_nil_r. auto.
    + eexists [_]. simpl. auto.
  - destruct (settle_message o t) as (m & _ & H). rewrite H.
    exists [m]. simpl. auto.
  - destruct (fetched_tools o) as (tools & error & H). rewrite H.
    exists []. simpl. rewrite app_nil_r. auto.
Qed.

(** X1: whatever happens in a session (typing, submits by handlers of any
    render, settled requests, tool fetches), the message log only grows
    at its end: the log before is a prefix of the log after, with at most
    one message more per event. *)
Theorem log_is_append_only (events : list event) (st : state) :
  exists added,
    messages (session events st) = messages st ++ added
    /\ length added <= length events.
Proof.
  unfold session. revert st.
  induction events as [|e events IH]; intros st; simpl.
  - exists []. rewrite app_nil_r. auto.
  - destruct (react_appends st e) as (a1 & H1 & L1).
    destruct (IH (react st e)) as (a2 & H2 & L2).
    exists (a1 ++ a2). rewrite H2, H1, <- app_assoc. split; [reflexivity|].
    rewrite length_app. lia.
Qed.

Lemma guard_passes (st : state) :
  trim (inputValue st) <> [] -> isLoading st = false ->
  negb (ToBoolean (VStr (trim (inputValue st)))) || isLoading st = false.
Proof.
  intros Hin Hload. rewrite Hload, orb_false_r.
  destruct (ToBoolean (VStr (trim (inputValue st)))) eqn:E; [reflexivity|].
  apply trim_truthy in E. contradiction.
Qed.

Lemma complete_send
  (hostname : jsstring) (st : state) (t0 t1 : clock) (o : fetch_outcome) :
  negb (ToBoolean (VStr (trim (inputValue st)))) || isLoading st = false ->
  exists m,
    type m = bot
    /\ snd (handleSubmit_start hostname st t0 st)
       = State (messages st
                  ++ [Message (now t0) user (VStr (inputValue st))
                              (localeTime t0) None])
               [] true (availableTools st) (toolsLoading st) (toolsError st)
    /\ snd (handleSubmit hostname st t0 o t1 st)
       = with_message
           (State (messages st
                     ++ [Message (now t0) user (VStr (inputValue st))
                                 (localeTime t0) None])
                  [] true (availableTools st) (toolsLoading st) (toolsError st))
           m false.
Proof.
  intros G. destruct (settle_message o t1) as (m & Hm & Hs).
  exists m. split; [exact Hm|].
  unfold handleSubmit, bind at 1. unfold handleSubmit_start.
  rewrite G. simpl. unfold bind. rewrite Hs. split; reflexivity.
Qed.

(** X2: once a send has started, a further submit does nothing, whatever
    is typed in the meantime, until the request settles; after it has
    settled, a submit of a non-blank input goes through again. *)
Theorem one_send_at_a_time
  (hostname : jsstring) (st : state) (t0 t1 t2 : clock) (text : jsstring)
  (o : fetch_outcome) :
  trim (inputValue st) <> [] ->
  isLoading st = false ->
  let started := react (react st (SubmitAsked hostname st t0)) (InputChanged text) in
  let settled := react (react started (ChatSettled o t1)) (InputChanged text) in
  handleSubmit_start hostname started t2 started = (Ok None, started)
  /\ (trim text <> [] ->
      exists req st', handleSubmit_start hostname settled t2 settled
                      = (Ok (Some req), st')).
Proof.
  intros Hin Hload. cbv zeta. split.
  - unfold handleSubmit_start at 1.
    assert (L : isLoading (react (react st (SubmitAsked hostname st t0))
                                 (InputChanged text)) = true).
    { simpl. unfold handleSubmit_start. rewrite (guard_passes st Hin Hload).
      reflexivity. }
    rewrite L, orb_true_r. reflexivity.
  - intros Htext.
    set (started := react (react st (SubmitAsked hostname st t0)) (InputChanged text)).
    set (settled := react (react started (ChatSettled o t1)) (InputChanged text)).
    assert (L : isLoading settled = false /\ inputValue settled = text).
    { unfold settled. simpl.
      destruct (settle_message o t1) as (m & _ & H). rewrite H. simpl. auto. }
    destruct L as [L I].
    unfold handleSubmit_start.
    rewrite (guard_passes settled); [|now rewrite I | exact L].
    eexists _, _. reflexivity.
Qed.

(** X3: the send that follows a completed send carries the whole exchange:
    its history is the history of the first send followed by the first
    user message (the input as typed, untrimmed) and the bot message that
    answered it; its message is the new input. *)
Theorem next_send_carries_the_exchange
  (hostname : jsstring) (st : state) (t0 t1 t2 : clock) (o : fetch_outcome)
  (text : jsstring) :
  trim (inputValue st) <> [] ->
  isLoading st = false ->
  trim text <> [] ->
  let again :=
    react (snd (handleSubmit hostname st t0 o t1 st)) (InputChanged text) in
  exists botMessage req st',
    messages again
    = messages st ++ [Message (now t0) user (VStr (inputValue st))
                              (localeTime t0) None; botMessage]
    /\ type botMessage = bot
    /\ handleSubmit_start hostname again t2 again = (Ok (Some req), st')
    /\ url req = getBackendURL hostname ++ str "/chat"
    /\ body_message req = VStr text
    /\ body_history req
       = List.map (fun msg => (type msg, content msg)) (messages st)
           ++ [(user, VStr (inputValue st)); (bot, content botMessage)].
Proof.
  intros Hin Hload Htext. cbv zeta.
  destruct (complete_send hostname st t0 t1 o (guard_passes st Hin Hload))
    as (m & Hm & _ & E).
  rewrite E. simpl.
  exists m. eexists _, _.
  split; [now rewrite <- app_assoc|].
  split; [exact Hm|].
  unfold handleSubmit_start. simpl.
  assert (G : negb (ToBoolean (VStr (trim text))) || false = false).
  { rewrite orb_false_r.
    destruct (ToBoolean (VStr (trim text))) eqn:Et; [reflexivity|].
    apply trim_truthy in Et. contradiction. }
  simpl in G. rewrite G.
  split; [reflexivity|]. simpl.
  split; [reflexivity|]. split; [reflexivity|].
  rewrite <- app_assoc, map_app. simpl. now rewrite Hm.
Qed.

(** X4: a tools fetch commutes with every event of the chat: typing, a
    submit and a settled chat request leave the same state whether the
    tools arrive before or after. *)
Theorem tools_fetch_commutes_with_chat
  (o : fetch_outcome) (st : state) :
  (forall text,
     react (react st (InputChanged text)) (ToolsFetched o)
     = react (react st (ToolsFetched o)) (InputChanged text))
  /\ (forall hostname render t,
        react (react st (SubmitAsked hostname render t)) (ToolsFetched o)
        = react (react st (ToolsFetched o)) (SubmitAsked hostname render t))
  /\ (forall o' t,
        react (react st (ChatSettled o' t)) (ToolsFetched o)
        = react (react st (ToolsFetched o)) (ChatSettled o' t)).
Proof.
  destruct (fetched_tools o) as (tools & error & H).
  repeat split.
  - intros text. simpl. now rewrite !H.
  - intros hostname render t. simpl. rewrite !H. unfold handleSubmit_start.
    destruct (negb (ToBoolean (VStr (trim (inputValue render)))) || isLoading render);
      reflexivity.
  - intros o' t. simpl. destruct (settle_message o' t) as (m & _ & Hs).
    now rewrite !H, !Hs.
Qed.


(** *** What the page shows, and when *)

(** X6: the send button is enabled exactly when a submit goes through;
    once a send has completed, the input is enabled again and the button
    is disabled, because the send emptied the input. *)
Theorem send_button_follows_the_guard
  (hostname : jsstring) (st : state) (t0 t1 : clock) (o : fetch_outcome) :
  (send_disabled st = false <->
   exists req st', handleSubmit_start hostname st t0 st = (Ok (Some req), st'))
  /\ (send_disabled st = false ->
      input_disabled (snd (handleSubmit_start hostname st t0 st)) = true
      /\ send_disabled (snd (handleSubmit_start hostname st t0 st)) = true
      /\ input_disabled (snd (handleSubmit hostname st t0 o t1 st)) = false
      /\ send_disabled (snd (handleSubmit hostname st t0 o t1 st)) = true).
Proof.
  unfold send_disabled at 1 2. split; [split|].
  - intros H. unfold handleSubmit_start. rewrite H. eexists _, _. reflexivity.
  - intros (req & st' & H). unfold handleSubmit_start in H.
    destruct (negb (ToBoolean (VStr (trim (inputValue st)))) || isLoading st);
      [discriminate H | reflexivity].
  - intros H.
    destruct (complete_send hostname st t0 t1 o H) as (m & _ & E1 & E2).
    rewrite E1, E2. unfold input_disabled, send_disabled. simpl. repeat split.
Qed.

Lemma null_tool_call (l : list value) :
  In VNull l ->
  mapM (fun tc => Get tc (str "name")) l
  = Throw (TypeError (ReadOfNullish (str "name"))).
Proof.
  induction l as [|tc l IH]; intros H; [destruct H|].
  simpl. destruct tc; simpl; try reflexivity;
    (destruct H as [H | H]; [discriminate H|]); now rewrite (IH H).
Qed.

(** X7: a body that breaks the contract costs the reply.  For an ok
    response whose body is [null], and for one whose [tool_calls] list
    holds a [null] entry, the bot message is the error message built from
    the engine's [TypeError], whatever [ai_message] says, and it carries
    no tool list. *)
Theorem malformed_body_gets_error_message
  (status : N) (t : clock) (cur : state) :
  handleSubmit_settle (Response true status (Ok VNull)) t cur
  = (Ok tt,
     with_message cur
       (Message (now t + 1) bot
          (VStr (errorMessage (TypeError (ReadOfNullish (str "ai_message")))))
          (localeTime t) None) false)
  /\ forall fields calls,
       lookup (str "tool_calls") fields = VArr calls ->
       In VNull calls ->
       handleSubmit_settle (Response true status (Ok (VObj fields))) t cur
       = (Ok tt,
          with_message cur
            (Message (now t + 1) bot
               (VStr (errorMessage (TypeError (ReadOfNullish (str "name")))))
               (localeTime t) None) false).
Proof.
  split; [reflexivity|].
  intros fields calls Htc Hin.
  unfold handleSubmit_settle, finally, try_catch, bind, lift, throw,
    setMessages, setIsLoading, with_message. simpl.
  rewrite Htc. unfold toolsUsedByBot.
  destruct calls as [|c calls]; [destruct Hin|].
  simpl ToBoolean. simpl length_gt_zero. cbv iota beta. simpl andb. cbv iota.
  rewrite (null_tool_call (c :: calls) Hin). reflexivity.
Qed.

(** X8: an [ai_message] that is an array holding a bare marker string is
    taken for formatted text: the array itself becomes the content of the
    bot message, and rendering that message fails, since an array has no
    [split]. *)
Theorem array_reply_is_stored_and_breaks_rendering
  (status : N) (fields : list (jsstring * value)) (l : list value)
  (t : clock) (cur : state) :
  lookup (str "ai_message") fields = VArr l ->
  existsb (is_string bullet) l || existsb (is_string bold) l
  || existsb (is_string paragraph_break) l = true ->
  well_formed_tool_calls (lookup (str "tool_calls") fields) = true ->
  exists m,
    handleSubmit_settle (Response true status (Ok (VObj fields))) t cur
    = (Ok tt, with_message cur m false)
    /\ type m = bot
    /\ content m = VArr l
    /\ render_message_body m
       = Throw (TypeError (NotAFunction (str "content.split"))).
Proof.
  intros Hai Hmark Htc.
  unfold handleSubmit_settle, finally, try_catch, bind, lift, throw,
    setMessages, setIsLoading, with_message. simpl.
  rewrite (toolsUsedByBot_well_formed _ Htc), Hai. simpl.
  rewrite Hmark. simpl.
  eexists. split; [reflexivity|]. repeat split.
Qed.

(** X9: the "Tools Used" part of a message card is shown for no error
    message, and for a reply that follows the contract exactly when its
    [tool_calls] list is not empty. *)
Theorem tools_used_shown_for_named_calls
  (o : fetch_outcome) (status : N) (fields : list (jsstring * value))
  (t : clock) (cur : state) :
  (failed o = true ->
   exists m, handleSubmit_settle o t cur = (Ok tt, with_message cur m false)
             /\ shows_tools_used m = false)
  /\ (textual_or_absent (lookup (str "ai_message") fields) = true ->
      well_formed_tool_calls (lookup (str "tool_calls") fields) = true ->
      exists m,
        handleSubmit_settle (Response true status (Ok (VObj fields))) t cur
        = (Ok tt, with_message cur m false)
        /\ shows_tools_used m
           = match lookup (str "tool_calls") fields with
             | VArr (_ :: _) => true
             | _ => false
             end).
Proof.
  split.
  - intros Hf.
    unfold handleSubmit_settle, finally, try_catch, bind, lift, throw,
      setMessages, setIsLoading, with_message.
    destruct o as [e | ok status' [data | e]]; simpl in *;
      try (destruct ok; try discriminate Hf; simpl);
      eexists; split; reflexivity.
  - intros Hai Htc.
    unfold handleSubmit_settle, finally, try_catch, bind, lift, throw,
      setMessages, setIsLoading, with_message. simpl.
    rewrite (toolsUsedByBot_well_formed _ Htc), (format_textual_reply _ Hai).
    simpl. eexists. split; [reflexivity|].
    unfold shows_tools_used. simpl.
    destruct (lookup (str "tool_calls") fields) as [| | b | n | s | l | fs];
      try reflexivity.
    destruct l; reflexivity.
Qed.


Lemma number_has_no_includes (l : list value) (n : number) :
  In (VNum n) l -> exists e, tool_chips l = Throw e.
Proof.
  unfold tool_chips.
  induction l as [|tool l IH]; intros H; [destruct H|].
  simpl. destruct (getToolIcon_value tool) as [i | e] eqn:E; [|eauto].
  destruct H as [-> | H]; [discriminate E|].
  destruct (IH H) as (e & He). rewrite He. eauto.
Qed.

(** X11: the tools fetch checks that [tools] is an array and nothing more: a
    list that holds a number is installed as the tool list without error,
    and the chips of that list cannot be drawn. *)
Theorem unchecked_tool_entries_break_the_chips
  (status : N) (fields : list (jsstring * value)) (l : list value)
  (n : number) (st : state) :
  lookup (str "tools") fields = VArr l ->
  In (VNum n) l ->
  let st' := snd (fetchAvailableTools (Response true status (Ok (VObj fields))) st) in
  availableTools st' = l
  /\ toolsError st' = None
  /\ exists e, renderToolsSection st' = Throw e.
Proof.
  intros Htools Hin. cbv zeta.
  unfold fetchAvailableTools, fetchAvailableTools_start, finally, try_catch,
    bind, lift, throw, setAvailableTools, setToolsLoading, setToolsError.
  simpl. rewrite Htools. simpl.
  split; [reflexivity|]. split; [reflexivity|].
  unfold renderToolsSection. simpl.
  destruct (number_has_no_includes l n Hin) as (e & He). rewrite He. eauto.
Qed.

End Component.

Arguments VUndefined {number}.
Arguments VNull {number}.
Arguments VBool {number} b.
Arguments VNum {number} n.
Arguments VStr {number} s.
Arguments VArr {number} l.
Arguments VObj {number} fields.
Arguments Rejected {number} e.
Arguments Response {number} ok status body.
Arguments initial_state {number} t.
Arguments typed_state {number} t text.
Arguments sample_reply {number}.
Arguments fallback_tools {number}.
Arguments hello_state {number}.
Arguments test_response {number}.
Arguments reply_with_null_call {number}.
Arguments reply_with_array_text {number}.
Arguments tools_with_number {number} n.
Arguments InputChanged {number} text.
Arguments SubmitAsked {number} hostname render t.
Arguments ChatSettled {number} o t.
Arguments ToolsFetched {number} o.
Arguments every_number_truthy {number} n.
Arguments never_greater_than_zero {number} v.

Unset Implicit Arguments.

(** *** The matcher *)

Lemma first_some_app {A B} (f : A -> option B) (l1 l2 : list A) :
  first_some f (l1 ++ l2)
  = match first_some f l1 with
    | Some y => Some y
    | None => first_some f l2
    end.
Proof.
  induction l1 as [|x l1 IH]; simpl; [reflexivity|].
  destruct (f x); [reflexivity | exact IH].
Qed.

Lemma first_some_map {A B C} (g : A -> B) (f : B -> option C) (l : list A) :
  first_some f (List.map g l) = first_some (fun x => f (g x)) l.
Proof.
  induction l as [|x l IH]; simpl; [reflexivity|].
  destruct (f (g x)); [reflexivity | exact IH].
Qed.

Lemma first_some_ext {A B} (f g : A -> option B) (l : list A) :
  (forall x, f x = g x) -> first_some f l = first_some g l.
Proof.
  intros E. induction l as [|x l IH]; simpl; [reflexivity|].
  now rewrite E, IH.
Qed.

(** The first match of a sequence: the first split of the left part
    after which the right part matches. *)
Lemma match_here_Seq (i : bool) (r1 r2 : regex) (s : jsstring) :
  match_here i (Seq r1 r2) s
  = first_some (fun mr1 => extend (fst mr1) (match_here i r2 (snd mr1)))
               (matches i r1 s).
Proof.
  unfold match_here, extend. simpl.
  induction (matches i r1 s) as [|mr1 l IH]; simpl; [reflexivity|].
  destruct (matches i r2 (snd mr1)) as [|mr2 l2]; simpl; [exact IH | reflexivity].
Qed.

Lemma extend_nil (mr : option (jsstring * jsstring)) : extend [] mr = mr.
Proof. destruct mr as [[m rest]|]; reflexivity. Qed.

Lemma first_some_extend_cons (c : N) (h : jsstring -> option (jsstring * jsstring))
  (l : list (jsstring * jsstring)) :
  first_some (fun x => extend (c :: fst x) (h (snd x))) l
  = extend [c] (first_some (fun x => extend (fst x) (h (snd x))) l).
Proof.
  induction l as [|x l IH]; simpl; [reflexivity|].
  destruct (h (snd x)) as [[m rest]|]; simpl; [reflexivity | exact IH].
Qed.

(** A greedy star followed by [r]: take the character and go on, and
    fall back to [r] alone when that fails. *)
Lemma match_here_Star_Seq (i : bool) (cl : cclass) (r : regex) (s : jsstring) :
  match_here i (Seq (Star cl) r) s
  = match s with
    | c :: s' =>
        if cmatch i cl c then
          match match_here i (Seq (Star cl) r) s' with
          | Some mr => Some (c :: fst mr, snd mr)
          | None => match_here i r s
          end
        else match_here i r s
    | [] => match_here i r s
    end.
Proof.
  rewrite match_here_Seq.
  destruct s as [|c s']; simpl.
  - rewrite extend_nil. destruct (match_here i r []); reflexivity.
  - destruct (cmatch i cl c); simpl.
    + rewrite first_some_app, first_some_map. simpl.
      rewrite match_here_Seq.
      rewrite (first_some_extend_cons c (match_here i r)), extend_nil.
      change (matches i (Star cl) s') with (star i cl s').
      destruct (first_some _ (star i cl s')) as [[m rest]|]; simpl; [reflexivity|].
      destruct (match_here i r (c :: s')); reflexivity.
    + rewrite extend_nil. destruct (match_here i r (c :: s')); reflexivity.
Qed.

(** *** The site pattern *)

Lemma canonicalize_dot (c : N) : N.eqb (ch ".") (canonicalize c) = is_dot c.
Proof.
  unfold canonicalize, is_dot. change (ch ".") with 46%N.
  destruct (N.leb 97 c && N.leb c 122) eqn:E.
  - apply andb_true_iff in E as [E1 E2].
    apply N.leb_le in E1, E2.
    transitivity false; [apply N.eqb_neq; lia | symmetry; apply N.eqb_neq; lia].
  - apply N.eqb_sym.
Qed.

Lemma N_range_one (x : N) : N_range x (N.to_nat (N.succ x - x)) = [x].
Proof.
  replace (N.succ x - x)%N with 1%N by lia. reflexivity.
Qed.

Lemma cmatch_lit (x c : N) :
  cmatch true (lit x) c = N.eqb (canonicalize x) (canonicalize c).
Proof.
  unfold cmatch, lit, in_range. simpl ranges. simpl inverted.
  cbn [existsb]. rewrite N_range_one. cbn [existsb].
  now rewrite !orb_false_r.
Qed.

Lemma cmatch_dot (c : N) : cmatch true dot c = is_dot c.
Proof.
  unfold dot. rewrite cmatch_lit.
  change (canonicalize (ch ".")) with (ch "."). apply canonicalize_dot.
Qed.

Lemma cmatch_not_dot (c : N) : cmatch true not_dot c = negb (is_dot c).
Proof.
  change (cmatch true not_dot c) with (xorb true (cmatch true dot c)).
  rewrite cmatch_dot. reflexivity.
Qed.

Lemma matches_literal (p s : jsstring) :
  matches true (literal p) s
  = if startsWith_ci p s then [(firstn (length p) s, skipn (length p) s)] else [].
Proof.
  revert s. induction p as [|x p IH]; intros s; [reflexivity|].
  cbn [literal matches].
  destruct s as [|c s]; [reflexivity|].
  rewrite cmatch_lit. cbn [startsWith_ci].
  destruct (N.eqb (canonicalize x) (canonicalize c)); [|reflexivity].
  cbn [flat_map fst snd app map andb]. rewrite IH.
  destruct (startsWith_ci p s); reflexivity.
Qed.

(** After the token, [[^.]*\.?] takes everything up to and including the
    next full stop. *)
Lemma matched_to_full_stop (s : jsstring) :
  matched true (Seq (Star not_dot) (Opt dot)) s = Some (through_dot s).
Proof.
  unfold matched.
  induction s as [|c s IH]; rewrite match_here_Star_Seq; [reflexivity|].
  rewrite cmatch_not_dot. cbn [through_dot].
  destruct (is_dot c) eqn:E; cbn [negb].
  - unfold match_here. cbn [matches]. rewrite cmatch_dot, E. reflexivity.
  - destruct (match_here true (Seq (Star not_dot) (Opt dot)) s) as [[m rest]|];
      [|discriminate].
    simpl in *. now injection IH as ->.
Qed.

Lemma matched_site_tail (site s : jsstring) :
  matched true (site_tail site) s
  = if startsWith_ci site s then Some (occurrence_onwards (length site) s)
    else None.
Proof.
  unfold matched, site_tail. rewrite match_here_Seq, matches_literal.
  destruct (startsWith_ci site s); [|reflexivity].
  cbn [first_some fst snd].
  pose proof (matched_to_full_stop (skipn (length site) s)) as H.
  unfold matched in H.
  destruct (match_here true (Seq (Star not_dot) (Opt dot)) (skipn (length site) s))
    as [[m rest]|]; [|discriminate].
  simpl in *. now injection H as ->.
Qed.

(** The site pattern at one position: go on over a character other than a
    full stop, and try the token here when that fails. *)
Lemma matched_site_pattern (site s : jsstring) :
  matched true (site_pattern site) s
  = match s with
    | c :: s' =>
        if is_dot c then matched true (site_tail site) s
        else match matched true (site_pattern site) s' with
             | Some m => Some (c :: m)
             | None => matched true (site_tail site) s
             end
    | [] => matched true (site_tail site) s
    end.
Proof.
  unfold matched at 1. unfold site_pattern.
  rewrite match_here_Star_Seq. fold (site_tail site).
  destruct s as [|c s']; [reflexivity|].
  rewrite cmatch_not_dot.
  destruct (is_dot c); cbn [negb]; [reflexivity|].
  unfold matched, site_pattern. fold (site_tail site).
  destruct (match_here true (Seq (Star not_dot) (site_tail site)) s');
    reflexivity.
Qed.

Lemma exec_matched (i : bool) (r : regex) (s : jsstring) :
  exec i r s
  = match matched i r s with
    | Some m => Some m
    | None => match s with
              | [] => None
              | _ :: s' => exec i r s'
              end
    end.
Proof.
  unfold matched. destruct s; simpl; destruct (match_here i r _); reflexivity.
Qed.

(** *** Occurrences up to letter case *)

Lemma is_dot_canonical (x y : N) :
  N.eqb (canonicalize x) (canonicalize y) = true -> is_dot x = is_dot y.
Proof.
  intros E. apply N.eqb_eq in E.
  rewrite <- !canonicalize_dot. now rewrite E.
Qed.

Lemma startsWith_ci_dot_free (p s : jsstring) :
  startsWith_ci p s = true -> dot_free (firstn (length p) s) = dot_free p.
Proof.
  revert s. induction p as [|x p IH]; intros [|y s]; simpl; try discriminate;
    [reflexivity | reflexivity |].
  intros H. apply andb_true_iff in H as [Hc Hr].
  now rewrite (is_dot_canonical _ _ Hc), (IH _ Hr).
Qed.

Lemma startsWith_ci_firstn (m : nat) (p s : jsstring) :
  startsWith_ci p s = true -> startsWith_ci (firstn m p) s = true.
Proof.
  revert p s. induction m as [|m IH]; intros [|x p] [|y s]; simpl;
    try discriminate; try reflexivity.
  intros H. apply andb_true_iff in H as [Hc Hr].
  now rewrite Hc, (IH _ _ Hr).
Qed.

Lemma startsWith_ci_refl (p s : jsstring) : startsWith_ci p (p ++ s) = true.
Proof.
  induction p as [|x p IH]; simpl; [reflexivity|].
  now rewrite N.eqb_refl, IH.
Qed.

Lemma dot_free_app (a b : jsstring) :
  dot_free (a ++ b) = dot_free a && dot_free b.
Proof. apply forallb_app. Qed.

Lemma dot_free_firstn (n : nat) (a : jsstring) :
  dot_free a = true -> dot_free (firstn n a) = true.
Proof.
  revert a. induction n as [|n IH]; intros [|c a]; simpl; try reflexivity.
  intros H. apply andb_true_iff in H as [Hc Ha].
  now rewrite Hc, (IH _ Ha).
Qed.

Lemma through_dot_app (a u : jsstring) :
  dot_free a = true -> through_dot (a ++ u) = a ++ through_dot u.
Proof.
  induction a as [|c a IH]; simpl; [reflexivity|].
  intros H. apply andb_true_iff in H as [Hc Ha].
  apply negb_true_iff in Hc. now rewrite Hc, (IH Ha).
Qed.

Lemma occurrence_onwards_dot_free (n : nat) (x : jsstring) :
  dot_free (firstn n x) = true -> occurrence_onwards n x = through_dot x.
Proof.
  unfold occurrence_onwards. revert x.
  induction n as [|n IH]; intros [|c x]; simpl; try reflexivity.
  intros H. apply andb_true_iff in H as [Hc Hx].
  apply negb_true_iff in Hc. now rewrite Hc, (IH _ Hx).
Qed.

(** A token that occurs at the head of [a ++ u] and again after the
    non-empty [a], which has no full stop, has no full stop itself. *)
Lemma repeated_occurrence_dot_free (a u : jsstring) :
  a <> [] -> dot_free a = true ->
  forall (n : nat) (site : jsstring),
    length site <= n ->
    startsWith_ci site (a ++ u) = true ->
    startsWith_ci site u = true ->
    dot_free site = true.
Proof.
  intros Ha Hd. induction n as [|n IH]; intros site Hn H1 H2.
  - destruct site; [reflexivity | simpl in Hn; lia].
  - rewrite <- (startsWith_ci_dot_free _ _ H1).
    rewrite firstn_app, dot_free_app, (dot_free_firstn _ _ Hd). simpl.
    set (k := length site - length a).
    assert (Hk : length (firstn k site) = k).
    { apply firstn_length_le. unfold k. lia. }
    rewrite <- Hk.
    rewrite (startsWith_ci_dot_free _ _ (startsWith_ci_firstn k _ _ H2)).
    apply IH.
    + rewrite Hk. unfold k. destruct a; [contradiction|]. simpl. lia.
    + now apply startsWith_ci_firstn.
    + now apply startsWith_ci_firstn.
Qed.

(** Whichever occurrence within the run is taken, the fragment from the
    first one on is the same. *)
Lemma occurrence_onwards_shift (site a u : jsstring) :
  dot_free a = true ->
  startsWith_ci site (a ++ u) = true ->
  startsWith_ci site u = true ->
  a ++ occurrence_onwards (length site) u
  = occurrence_onwards (length site) (a ++ u).
Proof.
  intros Hd H1 H2.
  destruct a as [|c a]; [reflexivity|].
  assert (Hs : dot_free site = true).
  { apply repeated_occurrence_dot_free
      with (a := c :: a) (u := u) (n := length site); auto; discriminate. }
  rewrite (occurrence_onwards_dot_free (length site) u).
  2:{ now rewrite (startsWith_ci_dot_free _ _ H2). }
  rewrite (occurrence_onwards_dot_free (length site) ((c :: a) ++ u)).
  2:{ now rewrite (startsWith_ci_dot_free _ _ H1). }
  now rewrite through_dot_app.
Qed.

(** *** What the site pattern matches *)

Lemma site_pattern_sound (site s m : jsstring) :
  matched true (site_pattern site) s = Some m ->
  exists a u, s = a ++ u /\ dot_free a = true /\ startsWith_ci site u = true
              /\ m = a ++ occurrence_onwards (length site) u.
Proof.
  assert (Htail : forall x m',
            matched true (site_tail site) x = Some m' ->
            exists a u, x = a ++ u /\ dot_free a = true
                        /\ startsWith_ci site u = true
                        /\ m' = a ++ occurrence_onwards (length site) u).
  { intros x m'. rewrite matched_site_tail.
    destruct (startsWith_ci site x) eqn:E; [|discriminate].
    intros [= <-]. exists [], x. auto. }
  revert m. induction s as [|c s IH]; intros m; rewrite matched_site_pattern.
  - apply Htail.
  - destruct (is_dot c) eqn:Ec; [apply Htail|].
    destruct (matched true (site_pattern site) s) as [m'|]; [|apply Htail].
    intros [= <-]. destruct (IH m' eq_refl) as (a & u & -> & Ha & Hu & ->).
    exists (c :: a), u. simpl. rewrite Ec. simpl. auto.
Qed.

Lemma site_pattern_complete (site a u : jsstring) :
  dot_free a = true -> startsWith_ci site u = true ->
  matched true (site_pattern site) (a ++ u) <> None.
Proof.
  intros Ha Hu.
  assert (Hhere : matched true (site_pattern site) u <> None).
  { rewrite matched_site_pattern.
    assert (Ht : matched true (site_tail site) u <> None).
    { rewrite matched_site_tail, Hu. discriminate. }
    destruct u as [|c u]; [exact Ht|].
    destruct (is_dot c); [exact Ht|].
    destruct (matched true (site_pattern site) u); [discriminate | exact Ht]. }
  induction a as [|c a IH]; [exact Hhere|].
  simpl in Ha. apply andb_true_iff in Ha as [Hc Ha].
  apply negb_true_iff in Hc.
  simpl. rewrite matched_site_pattern, Hc.
  destruct (matched true (site_pattern site) (a ++ u)); [discriminate|].
  exfalso. now apply IH.
Qed.

(** *** The site pattern finds the fragment around the first occurrence *)

Lemma exec_without_occurrence (site x : jsstring) :
  (forall t u, x = t ++ u -> startsWith_ci site u = false) ->
  exec true (site_pattern site) x = None.
Proof.
  induction x as [|c x IH]; intros Hno; rewrite exec_matched.
  - destruct (matched true (site_pattern site) []) as [m|] eqn:E; [|reflexivity].
    apply site_pattern_sound in E as (a & u & Hx & _ & Hu & _).
    rewrite (Hno a u Hx) in Hu. discriminate.
  - destruct (matched true (site_pattern site) (c :: x)) as [m|] eqn:E.
    + apply site_pattern_sound in E as (a & u & Hx & _ & Hu & _).
      rewrite (Hno a u Hx) in Hu. discriminate.
    + apply IH. intros t u ->. apply (Hno (c :: t) u). reflexivity.
Qed.

(** A run without full stop that ends within [p ++ c :: s], [c] being a
    full stop, ends within [p]. *)
Lemma dot_free_prefix_before_dot (a u p s : jsstring) (c : N) :
  dot_free a = true -> is_dot c = true -> a ++ u = p ++ c :: s ->
  exists t, p = a ++ t /\ u = t ++ c :: s.
Proof.
  intros Ha Hc E. apply app_eq_app in E as [l [[Hp Hs] | [Hp Hu]]].
  - destruct l as [|y l].
    + exists []. rewrite app_nil_r in Hp. rewrite app_nil_r. simpl in Hs. auto.
    + exfalso. subst a. rewrite dot_free_app in Ha.
      apply andb_true_iff in Ha as [_ Ha].
      injection Hs as <- _. simpl in Ha. rewrite Hc in Ha. discriminate.
  - exists l. auto.
Qed.

Lemma exec_skips_run (site pre s : jsstring) (c : N) :
  dot_free pre = true -> is_dot c = true ->
  (forall t u, pre = t ++ u -> startsWith_ci site (u ++ c :: s) = false) ->
  exec true (site_pattern site) (pre ++ c :: s) = exec true (site_pattern site) s.
Proof.
  intros Hd Hc. induction pre as [|x pre IH]; intros Hno.
  - change ([] ++ c :: s) with (c :: s).
    rewrite exec_matched, matched_site_pattern, Hc, matched_site_tail.
    pose proof (Hno [] [] eq_refl) as H0. simpl in H0. now rewrite H0.
  - change ((x :: pre) ++ c :: s) with (x :: (pre ++ c :: s)).
    rewrite exec_matched.
    destruct (matched true (site_pattern site) (x :: pre ++ c :: s)) as [m|] eqn:E.
    + apply site_pattern_sound in E as (a & u & Hx & Ha & Hu & _).
      symmetry in Hx.
      destruct (dot_free_prefix_before_dot a u (x :: pre) s c Ha Hc Hx)
        as (t & Hp & ->).
      rewrite (Hno a t Hp) in Hu. discriminate.
    + simpl in Hd. apply andb_true_iff in Hd as [_ Hd].
      apply IH; [exact Hd|].
      intros t u ->. apply (Hno (x :: t) u). reflexivity.
Qed.

Lemma exec_site_pattern_from (site s pre : jsstring) :
  dot_free pre = true ->
  (forall t u, pre = t ++ u -> u <> [] -> startsWith_ci site (u ++ s) = false) ->
  exec true (site_pattern site) (pre ++ s)
  = fragment_around (startsWith_ci site) (length site) (rev pre) s.
Proof.
  revert pre. induction s as [|c s IH]; intros pre Hd Hno.
  - cbn [fragment_around].
    destruct (startsWith_ci site []) eqn:E.
    + rewrite exec_matched.
      destruct (matched true (site_pattern site) (pre ++ [])) as [m|] eqn:Em.
      * apply site_pattern_sound in Em as (a & u & Hx & Ha & Hu & ->).
        rewrite app_nil_r in Hx. rewrite rev_involutive.
        destruct u as [|y u].
        -- rewrite app_nil_r in Hx. now subst a.
        -- rewrite <- (app_nil_r (y :: u)) in Hu.
           rewrite (Hno a (y :: u) Hx) in Hu; discriminate.
      * exfalso. now apply (site_pattern_complete site pre [] Hd E).
    + apply exec_without_occurrence. intros t u Hx.
      rewrite app_nil_r in Hx.
      destruct u as [|y u]; [exact E|].
      rewrite <- (app_nil_r (y :: u)). apply (Hno t); [exact Hx | discriminate].
  - cbn [fragment_around].
    destruct (startsWith_ci site (c :: s)) eqn:E.
    + rewrite exec_matched.
      destruct (matched true (site_pattern site) (pre ++ c :: s)) as [m|] eqn:Em.
      * apply site_pattern_sound in Em as (a & u & Hx & Ha & Hu & ->).
        rewrite rev_involutive.
        apply app_eq_app in Hx as [l [[-> ->] | [-> Hx]]].
        -- destruct l as [|y l].
           ++ now rewrite app_nil_r.
           ++ rewrite (Hno a (y :: l) eq_refl) in Hu; discriminate.
        -- rewrite dot_free_app in Ha. apply andb_true_iff in Ha as [_ Hl].
           rewrite Hx in E. rewrite Hx.
           rewrite <- (occurrence_onwards_shift site l u Hl E Hu).
           now rewrite app_assoc.
      * exfalso. now apply (site_pattern_complete site pre (c :: s) Hd E).
    + destruct (is_dot c) eqn:Ec.
      * rewrite exec_skips_run; auto.
        -- apply (IH []); [reflexivity|].
           intros t u Hx Hu. destruct t; destruct u; try discriminate.
           now contradiction Hu.
        -- intros t u Hx. destruct u as [|y u]; [exact E|].
           apply (Hno t); [exact Hx | discriminate].
      * replace (pre ++ c :: s) with ((pre ++ [c]) ++ s)
          by (rewrite <- app_assoc; reflexivity).
        rewrite IH.
        -- now rewrite rev_app_distr.
        -- rewrite dot_free_app, Hd. simpl. now rewrite Ec.
        -- intros t u Hx Hu.
           destruct (exists_last Hu) as (u0 & y & ->).
           rewrite app_assoc in Hx. apply app_inj_tail in Hx as [-> <-].
           rewrite <- app_assoc. simpl.
           destruct u0 as [|z u0]; [exact E|].
           apply (Hno t); [reflexivity | discriminate].
Qed.

(** The site pattern matches the sentence fragment around the first
    occurrence of the token in any letter case, and fails when there is
    no such occurrence. *)
Lemma exec_site_pattern (site content : jsstring) :
  String_match true (site_pattern site) content = fragment_ci site content.
Proof.
  unfold String_match, fragment_ci.
  apply (exec_site_pattern_from site content []); [reflexivity|].
  intros t u Hx Hu. destruct t; destruct u; try discriminate.
  now contradiction Hu.
Qed.

Lemma fragment_around_found occurs n (pre u : jsstring) :
  occurs u = true ->
  forall before, fragment_around occurs n before (pre ++ u) <> None.
Proof.
  intros Hu. induction pre as [|c pre IH]; intros before.
  - simpl. destruct u; simpl; rewrite Hu; discriminate.
  - simpl. destruct (occurs (c :: pre ++ u)); [discriminate | apply IH].
Qed.

(** Two ways of telling occurrences that agree on every suffix of the text
    give the same fragment: where the text has the token in one letter
    case only, the fragment is the one around the token's own first
    occurrence. *)
Lemma fragment_around_ext (occurs1 occurs2 : jsstring -> bool) (n : nat)
  (s : jsstring) :
  (forall pre u, s = pre ++ u -> occurs1 u = occurs2 u) ->
  forall before,
    fragment_around occurs1 n before s = fragment_around occurs2 n before s.
Proof.
  induction s as [|c s IH]; intros H before; simpl.
  - now rewrite (H [] [] eq_refl).
  - rewrite (H [] (c :: s) eq_refl).
    destruct (occurs2 (c :: s)); [reflexivity|].
    apply IH. intros pre u ->. apply (H (c :: pre) u). reflexivity.
Qed.

Lemma fragment_ci_exact (site content : jsstring) :
  (forall pre u, content = pre ++ u -> startsWith_ci site u = startsWith site u) ->
  fragment_ci site content = fragment_exact site content.
Proof.
  intros H. unfold fragment_ci, fragment_exact. now apply fragment_around_ext.
Qed.

(** *** Matches are parts of the text *)

Lemma star_sound (i : bool) (cl : cclass) (s : jsstring) (mr : jsstring * jsstring) :
  In mr (star i cl s) -> s = fst mr ++ snd mr.
Proof.
  revert mr. induction s as [|c s IH]; intros mr; simpl.
  - intros [<- | []]. reflexivity.
  - destruct (cmatch i cl c).
    + intros H. apply in_app_or in H as [H | [<- | []]]; [|reflexivity].
      apply in_map_iff in H as (mr' & <- & H). simpl. now rewrite <- (IH mr').
    + intros [<- | []]. reflexivity.
Qed.

Lemma matches_sound (i : bool) (r : regex) (s : jsstring) (mr : jsstring * jsstring) :
  In mr (matches i r s) -> s = fst mr ++ snd mr.
Proof.
  revert s mr. induction r as [| cl | r1 IH1 r2 IH2 | r1 IH1 r2 IH2 | cl | cl | cl];
    intros s mr; simpl.
  - intros [<- | []]. reflexivity.
  - destruct s as [|c s]; [intros []|].
    destruct (cmatch i cl c); [|intros []]. intros [<- | []]. reflexivity.
  - intros H. apply in_flat_map in H as (mr1 & H1 & H).
    apply in_map_iff in H as (mr2 & <- & H2). simpl.
    rewrite (IH1 _ _ H1) at 1. rewrite (IH2 _ _ H2) at 1.
    now rewrite app_assoc.
  - intros H. apply in_app_or in H as [H | H]; auto.
  - apply star_sound.
  - destruct s as [|c s]; [intros []|].
    destruct (cmatch i cl c); [|intros []].
    intros H. apply in_map_iff in H as (mr' & <- & H). simpl.
    now rewrite <- (star_sound _ _ _ _ H).
  - destruct s as [|c s]; [intros [<- | []]; reflexivity|].
    destruct (cmatch i cl c).
    + intros [<- | [<- | []]]; reflexivity.
    + intros [<- | []]. reflexivity.
Qed.

Lemma match_here_sound (i : bool) (r : regex) (s : jsstring) (mr : jsstring * jsstring) :
  match_here i r s = Some mr -> s = fst mr ++ snd mr.
Proof.
  unfold match_here. destruct (matches i r s) as [|mr' l] eqn:E; [discriminate|].
  intros [= <-]. apply (matches_sound i r). rewrite E. now left.
Qed.

Lemma match_all_part (i : bool) (r : regex) (s : jsstring) (k : nat) (x : jsstring) :
  In x (match_all i r k s) -> exists pre post, s = pre ++ x ++ post.
Proof.
  revert k. induction s as [|c s IH]; intros k; destruct k as [|k]; simpl.
  - destruct (match_here i r []) as [mr|] eqn:E; [|intros []].
    intros [<- | []]. exists [], (snd mr). now apply match_here_sound in E.
  - intros [].
  - destruct (match_here i r (c :: s)) as [mr|] eqn:E.
    + intros [<- | H].
      * exists [], (snd mr). now apply match_here_sound in E.
      * apply IH in H as (pre & post & ->). now exists (c :: pre), post.
    + intros H. apply IH in H as (pre & post & ->). now exists (c :: pre), post.
  - intros H. apply IH in H as (pre & post & ->). now exists (c :: pre), post.
Qed.

(** Every detected token has a fragment. *)
Lemma detected_token_has_fragment (content site : jsstring) :
  In site (detected_tokens content) -> fragment_ci site content <> None.
Proof.
  unfold detected_tokens, String_match_g. intros H.
  assert (Hin : In site (match_all false website_pattern 0 content)).
  { destruct (match_all false website_pattern 0 content); [destruct H | exact H]. }
  apply match_all_part in Hin as (pre & post & ->).
  apply fragment_around_found. apply startsWith_ci_refl.
Qed.

(** *** The formatter *)

Lemma add_bullets (content : jsstring) (tokens : list jsstring) :
  Forall (fun site => fragment_ci site content <> None) tokens ->
  forall acc,
    fold_left (add_bullet content) tokens acc
    = acc ++ concat (List.map (fun site =>
                       bullet_line site (body_of (fragment_ci site content) site))
                     tokens).
Proof.
  induction 1 as [|site tokens Hsite _ IH]; intros acc;
    cbn [fold_left List.map concat].
  - now rewrite app_nil_r.
  - rewrite IH. unfold add_bullet. rewrite exec_site_pattern.
    destruct (fragment_ci site content) as [f|]; [|contradiction].
    unfold bullet_line, body_of. now rewrite <- !app_assoc.
Qed.

Lemma sentences_at_most_segments (content : jsstring) :
  length (sentences_of content) <= length (String_split sentence_end content).
Proof. apply filter_length_le. Qed.

(** C4: a text that contains a bullet marker, a bold marker or a
    paragraph break comes back as it is, and so does a text of at most 300
    characters and a text with at most three sentence-like segments
    (counted with or without the blank ones). *)
Theorem formatAIResponse_unchanged (content : jsstring) :
  includes bullet content = true
  \/ includes bold content = true
  \/ includes paragraph_break content = true
  \/ length content <= 300
  \/ length (sentences_of content) <= 3
  \/ length (String_split sentence_end content) <= 3 ->
  formatAIResponse content = content.
Proof.
  intros H. unfold formatAIResponse.
  destruct (includes bullet content); [reflexivity|].
  destruct (includes bold content); [reflexivity|].
  destruct (includes paragraph_break content); [reflexivity|].
  simpl.
  destruct H as [H | [H | [H | H]]]; try discriminate H.
  assert (G : (3 <? length (sentences_of content))
              && (300 <? length content) = false).
  { pose proof (sentences_at_most_segments content).
    apply andb_false_iff.
    destruct H as [H | [H | H]];
      [right | left | left]; apply Nat.ltb_ge; lia. }
  idtac.
  now rewrite G.
Qed.

Lemma startsWith_self_app (p b : jsstring) : startsWith p (p ++ b) = true.
Proof.
  induction p as [|x p IH]; simpl; [reflexivity|].
  now rewrite N.eqb_refl, IH.
Qed.

Lemma startsWith_app_inv (p s : jsstring) :
  startsWith p s = true -> s = p ++ skipn (length p) s.
Proof.
  revert s. induction p as [|x p IH]; intros [|y s]; simpl; try discriminate;
    try reflexivity.
  intros H. apply andb_true_iff in H as [Hx Hr].
  apply N.eqb_eq in Hx. subst y. now rewrite <- (IH s Hr).
Qed.

(** Removing the first occurrence: when [pre] is the shortest text
    before an occurrence of [p], the replacement leaves what stands
    before and after that occurrence. *)
Lemma replace_empty_first (p pre post : jsstring) :
  (forall pre' post', pre ++ p ++ post = pre' ++ p ++ post' ->
                      length pre <= length pre') ->
  replace_empty p (pre ++ p ++ post) = pre ++ post.
Proof.
  induction pre as [|c pre IH]; intros Hmin.
  - cbn [app].
    assert (E : forall s, startsWith p s = true ->
                          replace_empty p s = skipn (length p) s).
    { intros s Hs. destruct s; cbn [replace_empty]; now rewrite Hs. }
    rewrite E by apply startsWith_self_app.
    rewrite skipn_app, skipn_all, Nat.sub_diag. reflexivity.
  - change ((c :: pre) ++ p ++ post) with (c :: (pre ++ p ++ post)).
    cbn [replace_empty].
    destruct (startsWith p (c :: pre ++ p ++ post)) eqn:E.
    + apply startsWith_app_inv in E.
      specialize (Hmin [] (skipn (length p) (c :: pre ++ p ++ post)) E).
      simpl in Hmin. lia.
    + cbn [app]. f_equal. apply IH. intros pre' post' H.
      specialize (Hmin (c :: pre') post').
      cbn [app length] in Hmin. rewrite H in Hmin.
      specialize (Hmin eq_refl). lia.
Qed.

(** The list branch of the formatter: the header, the bullet lines of the
    detected tokens, and the closing invitation. *)
Lemma formatAIResponse_list_shape (content : jsstring) :
  has_marker content = false ->
  300 < length content ->
  3 < length (sentences_of content) ->
  2 < length (detected_tokens content) ->
  formatAIResponse content
  = list_header
    ++ concat (List.map (fun line => bullet_line (fst line) (snd line))
                 (combine (detected_tokens content)
                    (List.map (fun site => body_of (fragment_ci site content) site)
                              (detected_tokens content))))
    ++ list_footer.
Proof.
  intros Hm Hlen Hsent Htok.
  assert (Hall : Forall (fun site => fragment_ci site content <> None)
                        (detected_tokens content)).
  { apply Forall_forall. intros site. apply detected_token_has_fragment. }
  assert (E : formatAIResponse content
              = fold_left (add_bullet content) (detected_tokens content)
                          list_header ++ list_footer).
  { unfold formatAIResponse. fold (has_marker content). rewrite Hm.
    apply Nat.ltb_lt in Hlen, Hsent. rewrite Hlen, Hsent. simpl.
    unfold detected_tokens in *.
    destruct (String_match_g website_pattern content) as [tokens|];
      [|simpl in Htok; lia].
    apply Nat.ltb_lt in Htok. now rewrite Htok. }
  assert (C : forall tokens,
             concat (List.map (fun site =>
                       bullet_line site (body_of (fragment_ci site content) site))
                     tokens)
             = concat (List.map (fun line => bullet_line (fst line) (snd line))
                         (combine tokens
                            (List.map (fun site =>
                                         body_of (fragment_ci site content) site)
                                      tokens)))).
  { induction tokens as [|site tokens IH]; [reflexivity|].
    cbn [List.map combine concat fst snd]. now rewrite IH. }
  rewrite E, (add_bullets content _ Hall), C. now rewrite <- app_assoc.
Qed.

(** C5, as amended: for a text without markers, longer than 300
    characters and with more than three sentences (the segments that are
    not blank), in which the scan finds more than two tokens, the result
    is the header, one bullet line for each detected token in order
    (duplicates included), and the closing invitation.  The label of a
    line is the token.  Every token has a sentence fragment, the one
    around its first occurrence in any letter case; when that fragment
    holds the token as written, the body of the line is the fragment
    without the first such occurrence, trimmed. *)
Theorem formatAIResponse_lists_tokens (content : jsstring) :
  has_marker content = false ->
  300 < length content ->
  3 < length (sentences_of content) ->
  2 < length (detected_tokens content) ->
  exists bodies,
    formatAIResponse content
    = str "I found several great options:" ++ [LF; LF]
      ++ concat (List.map (fun line => bullet_line (fst line) (snd line))
                          (combine (detected_tokens content) bodies))
      ++ [LF]
      ++ str "Would you like me to provide more details about any of these options?"
    /\ Forall2
         (fun site body =>
            exists fragment,
              fragment_ci site content = Some fragment
              /\ forall pre post,
                   fragment = pre ++ site ++ post ->
                   (forall pre' post', fragment = pre' ++ site ++ post' ->
                                       length pre <= length pre') ->
                   body = trim (pre ++ post))
         (detected_tokens content) bodies.
Proof.
  intros Hm Hlen Hsent Htok.
  exists (List.map (fun site => body_of (fragment_ci site content) site)
                   (detected_tokens content)).
  split.
  - rewrite (formatAIResponse_list_shape content Hm Hlen Hsent Htok).
    unfold list_header, list_footer. now rewrite <- !app_assoc.
  - assert (Hall : Forall (fun site => fragment_ci site content <> None)
                          (detected_tokens content)).
    { apply Forall_forall. intros site. apply detected_token_has_fragment. }
    clear Htok. induction Hall as [|site tokens Hsite _ IH]; [constructor|].
    cbn [List.map]. constructor; [|exact IH].
    destruct (fragment_ci site content) as [f|]; [|contradiction].
    exists f. split; [reflexivity|].
    intros pre post -> Hmin. unfold body_of.
    now rewrite replace_empty_first.
Qed.

(** A list joined with [". "] and closed with a full stop, a space
    added, is the list with a full stop and a space after each element. *)
Lemma join_full_stops (l : list jsstring) :
  l <> [] ->
  (join (str ". ") l ++ str ".") ++ str " "
  = concat (List.map (fun s => s ++ str ". ") l).
Proof.
  induction l as [|x l IH]; intros H; [contradiction|].
  destruct l as [|y l].
  - cbn [join List.map concat]. now rewrite <- app_assoc, app_nil_r.
  - change (join (str ". ") (x :: y :: l))
      with (x ++ str ". " ++ join (str ". ") (y :: l)).
    cbn [List.map concat] in *.
    rewrite <- IH by discriminate. now rewrite <- !app_assoc.
Qed.

(** C6: for a text without markers, longer than 300 characters and with
    more than three sentences (the segments between runs of [.], [!] and
    [?] that are not blank), in which the scan finds at most two tokens,
    the result is two paragraphs with a blank line between them.  The
    first paragraph is made of the first half of the sentences, the list
    being cut at half its length rounded down, and the second of the
    rest; a paragraph is its sentences in order, each followed by a full
    stop, with one space between a full stop and the next sentence. *)
Theorem formatAIResponse_splits_in_two (content : jsstring) :
  has_marker content = false ->
  300 < length content ->
  3 < length (sentences_of content) ->
  length (detected_tokens content) <= 2 ->
  exists firstHalf secondHalf p1 p2,
    sentences_of content = firstHalf ++ secondHalf
    /\ length firstHalf = length (sentences_of content) / 2
    /\ 2 * length firstHalf <= length (sentences_of content)
                            < 2 * length firstHalf + 2
    /\ formatAIResponse content = p1 ++ [LF; LF] ++ p2
    /\ p1 ++ str " " = concat (List.map (fun s => s ++ str ". ") firstHalf)
    /\ p2 ++ str " " = concat (List.map (fun s => s ++ str ". ") secondHalf).
Proof.
  intros Hm Hlen Hsent Htok.
  set (sentences := sentences_of content) in *.
  set (midPoint := length sentences / 2).
  assert (Hmid : 2 * midPoint <= length sentences < 2 * midPoint + 2).
  { pose proof (Nat.div_mod_eq (length sentences) 2) as E.
    pose proof (Nat.mod_upper_bound (length sentences) 2) as B.
    unfold midPoint. lia. }
  assert (Hfirst : length (firstn midPoint sentences) = midPoint)
    by (apply firstn_length_le; lia).
  exists (firstn midPoint sentences), (skipn midPoint sentences),
         (join (str ". ") (firstn midPoint sentences) ++ str "."),
         (join (str ". ") (skipn midPoint sentences) ++ str ".").
  split; [symmetry; apply firstn_skipn|].
  split; [exact Hfirst|]. split; [rewrite Hfirst; exact Hmid|].
  split; [|split].
  - unfold formatAIResponse. fold (has_marker content). rewrite Hm.
    fold sentences.
    apply Nat.ltb_lt in Hlen, Hsent. rewrite Hlen, Hsent. simpl.
    unfold detected_tokens in Htok.
    destruct (String_match_g website_pattern content) as [tokens|];
      [|reflexivity].
    apply Nat.ltb_ge in Htok. rewrite Htok. reflexivity.
  - apply join_full_stops. intros E.
    rewrite E in Hfirst. simpl in Hfirst. lia.
  - apply join_full_stops. intros E.
    apply (f_equal (@length _)) in E. rewrite length_skipn in E.
    simpl in E. lia.
Qed.

(** *** The tokens are ASCII

    The characters of a match are characters of the pattern's classes: a
    detected token is made of word characters and full stops, so the
    pattern built from a token compares ASCII characters only. *)

Lemma star_chars (i : bool) (cl : cclass) (s : jsstring) (mr : jsstring * jsstring) :
  In mr (star i cl s) -> forallb (cmatch i cl) (fst mr) = true.
Proof.
  revert mr. induction s as [|c s IH]; intros mr; simpl.
  - intros [<- | []]. reflexivity.
  - destruct (cmatch i cl c) eqn:E.
    + intros H. apply in_app_or in H as [H | [<- | []]]; [|reflexivity].
      apply in_map_iff in H as (mr' & <- & H).
      cbn [fst forallb]. rewrite E. now apply IH.
    + intros [<- | []]. reflexivity.
Qed.

Lemma forallb_weaken {A} (f g : A -> bool) (l : list A) :
  (forall x, f x = true -> g x = true) ->
  forallb f l = true -> forallb g l = true.
Proof.
  intros Hfg. induction l as [|x l IH]; simpl; [reflexivity|].
  intros H. apply andb_true_iff in H as [Hx Hl].
  now rewrite (Hfg x Hx), (IH Hl).
Qed.

Lemma matches_chars (i : bool) (r : regex) (s : jsstring) (mr : jsstring * jsstring) :
  In mr (matches i r s) -> forallb (chars_of i r) (fst mr) = true.
Proof.
  revert s mr. induction r as [| cl | r1 IH1 r2 IH2 | r1 IH1 r2 IH2 | cl | cl | cl];
    intros s mr; simpl.
  - intros [<- | []]. reflexivity.
  - destruct s as [|c s]; [intros []|].
    destruct (cmatch i cl c) eqn:E; [|intros []].
    intros [<- | []]. simpl. now rewrite E.
  - intros H. apply in_flat_map in H as (mr1 & H1 & H).
    apply in_map_iff in H as (mr2 & <- & H2). simpl.
    rewrite forallb_app. apply andb_true_iff. split.
    + apply (forallb_weaken (chars_of i r1)); [|now apply (IH1 s)].
      intros x Hx. now rewrite Hx.
    + apply (forallb_weaken (chars_of i r2)); [|now apply (IH2 (snd mr1))].
      intros x Hx. rewrite Hx. apply orb_true_r.
  - intros H. apply in_app_or in H as [H | H].
    + apply (forallb_weaken (chars_of i r1)); [|now apply (IH1 s)].
      intros x Hx. now rewrite Hx.
    + apply (forallb_weaken (chars_of i r2)); [|now apply (IH2 s)].
      intros x Hx. rewrite Hx. apply orb_true_r.
  - apply star_chars.
  - destruct s as [|c s]; [intros []|].
    destruct (cmatch i cl c) eqn:E; [|intros []].
    intros H. apply in_map_iff in H as (mr' & <- & H).
    cbn [fst forallb]. rewrite E. now apply (star_chars i cl s).
  - destruct s as [|c s]; [intros [<- | []]; reflexivity|].
    destruct (cmatch i cl c) eqn:E.
    + intros [<- | [<- | []]]; simpl; [now rewrite E | reflexivity].
    + intros [<- | []]. reflexivity.
Qed.

Lemma match_all_chars (i : bool) (r : regex) (s : jsstring) (k : nat) (x : jsstring) :
  In x (match_all i r k s) -> forallb (chars_of i r) x = true.
Proof.
  assert (Hhere : forall s' mr, match_here i r s' = Some mr ->
                                forallb (chars_of i r) (fst mr) = true).
  { intros s' mr. unfold match_here.
    destruct (matches i r s') as [|mr' l] eqn:E; [discriminate|].
    intros [= <-]. apply (matches_chars i r s'). rewrite E. now left. }
  revert k. induction s as [|c s IH]; intros k; destruct k as [|k]; simpl.
  - destruct (match_here i r []) as [mr|] eqn:E; [|intros []].
    intros [<- | []]. now apply (Hhere []).
  - intros [].
  - destruct (match_here i r (c :: s)) as [mr|] eqn:E.
    + intros [<- | H]; [now apply (Hhere (c :: s)) | now apply (IH _ H)].
    + apply IH.
  - apply IH.
Qed.

Lemma website_pattern_chars (c : N) :
  chars_of false website_pattern c = true -> is_token_char c = true.
Proof.
  unfold is_token_char, is_dot. cbn.
  rewrite !orb_false_r.
  repeat rewrite orb_true_iff. repeat rewrite andb_true_iff.
  repeat rewrite N.leb_le. rewrite N.eqb_eq.
  lia.
Qed.

(** A detected token is made of word characters and full stops. *)
Lemma detected_token_chars (content site : jsstring) :
  In site (detected_tokens content) -> forallb is_token_char site = true.
Proof.
  unfold detected_tokens, String_match_g. intros H.
  assert (Hin : In site (match_all false website_pattern 0 content)).
  { destruct (match_all false website_pattern 0 content); [destruct H | exact H]. }
  apply match_all_chars in Hin.
  apply (forallb_weaken (chars_of false website_pattern)); [|exact Hin].
  apply website_pattern_chars.
Qed.

Lemma token_char_is_ascii (c : N) : is_token_char c = true -> (c < 128)%N.
Proof.
  unfold is_token_char, is_dot. cbn.
  rewrite !orb_false_r.
  repeat rewrite orb_true_iff. repeat rewrite andb_true_iff.
  repeat rewrite N.leb_le. rewrite N.eqb_eq.
  lia.
Qed.

(** *** The properties on examples *)

(** C7 at the hostname of the deployed page. *)
Lemma backend_and_label_by_hostname_witness :
  str "simple-agent-frontend.onrender.com" <> str "localhost"
  /\ str "simple-agent-frontend.onrender.com" <> str "127.0.0.1"
  /\ statusLabel (str "simple-agent-frontend.onrender.com") = str "Online"
  /\ getBackendURL (str "simple-agent-frontend.onrender.com")
     = str "https://simple-agent-backend.onrender.com".
Proof.
  assert (H1 : str "simple-agent-frontend.onrender.com" <> str "localhost")
    by (intros E; discriminate E).
  assert (H2 : str "simple-agent-frontend.onrender.com" <> str "127.0.0.1")
    by (intros E; discriminate E).
  split; [exact H1|]. split; [exact H2|].
  exact (proj2 (proj2 (proj2 (proj2
           (backend_and_label_by_hostname
              (str "simple-agent-frontend.onrender.com"))))) H1 H2).
Defined.

(** C3 on an input of blanks. *)
Lemma handleSubmit_blocked_is_noop_witness :
  trim (inputValue (typed_state (number:=unit) (Clock 0 []) (str "   "))) = []
  /\ handleSubmit_start (number:=unit) every_number_truthy (str "localhost")
       (typed_state (Clock 0 []) (str "   ")) (Clock 5 [])
       (typed_state (Clock 0 []) (str "   "))
     = (Ok None, typed_state (Clock 0 []) (str "   "))
  /\ handleSubmit (number:=unit) every_number_truthy plain_message never_greater_than_zero
       (str "localhost") (typed_state (Clock 0 []) (str "   ")) (Clock 5 [])
       (Response true 200 (Ok (VObj sample_reply))) (Clock 9 [])
       (typed_state (Clock 0 []) (str "   "))
     = (Ok None, typed_state (Clock 0 []) (str "   ")).
Proof.
  split; [reflexivity|].
  apply (handleSubmit_blocked_is_noop (number:=unit) every_number_truthy plain_message
           never_greater_than_zero).
  left. reflexivity.
Defined.

(** C1 on the send of the test suite. *)
Lemma handleSubmit_appends_user_then_bot_witness :
  trim (inputValue (typed_state (number:=unit) (Clock 0 []) (str "Hello AI!"))) <> []
  /\ isLoading (typed_state (number:=unit) (Clock 0 []) (str "Hello AI!")) = false
  /\ length (messages (snd
       (handleSubmit (number:=unit) every_number_truthy plain_message never_greater_than_zero
          (str "localhost") (typed_state (Clock 0 []) (str "Hello AI!"))
          (Clock 5 []) (Response true 200 (Ok (VObj sample_reply))) (Clock 9 [])
          (typed_state (Clock 0 []) (str "Hello AI!")))))
     = length (messages (typed_state (number:=unit) (Clock 0 []) (str "Hello AI!"))) + 2.
Proof.
  assert (H1 : trim (inputValue (typed_state (number:=unit) (Clock 0 [])
                                             (str "Hello AI!"))) <> [])
    by (intros E; discriminate E).
  split; [exact H1|]. split; [reflexivity|].
  destruct (handleSubmit_appends_user_then_bot (number:=unit) every_number_truthy plain_message
              never_greater_than_zero (str "localhost")
              (typed_state (Clock 0 []) (str "Hello AI!"))
              (Clock 5 []) (Clock 9 [])
              (Response true 200 (Ok (VObj sample_reply))) H1 eq_refl)
    as (req & userMessage & botMessage & H).
  exact (proj1 (proj2 (proj2 (proj2 (proj2 (proj2 (proj2 (proj2 H)))))))).
Defined.


(** C9 on the reply of the test suite. *)
Lemma toolsUsed_are_names_in_order_witness :
  textual_or_absent (lookup (number:=unit) (str "ai_message") sample_reply) = true
  /\ well_formed_tool_calls (lookup (number:=unit) (str "tool_calls") sample_reply) = true
  /\ exists m,
       handleSubmit_settle (number:=unit) every_number_truthy plain_message
         never_greater_than_zero (Response true 200 (Ok (VObj sample_reply)))
         (Clock 9 []) (typed_state (Clock 0 []) [])
       = (Ok tt, with_message (typed_state (Clock 0 []) []) m false)
       /\ type m = bot
       /\ toolsUsed m = Some [VStr (str "firecrawl_search")].
Proof.
  split; [reflexivity|]. split; [reflexivity|].
  destruct (toolsUsed_are_names_in_order (number:=unit) every_number_truthy plain_message
              never_greater_than_zero 200 sample_reply (Clock 9 [])
              (typed_state (Clock 0 []) []) eq_refl eq_refl)
    as (m & H1 & H2 & H3 & _).
  exists m. split; [exact H1|]. split; [exact H2 | exact H3].
Defined.

(** C10 on an empty body. *)
Lemma missing_reply_gets_placeholder_witness :
  lookup (number:=unit) (str "ai_message") [] = VUndefined
  /\ well_formed_tool_calls (lookup (number:=unit) (str "tool_calls") []) = true
  /\ exists m,
       handleSubmit_settle (number:=unit) every_number_truthy plain_message
         never_greater_than_zero (Response true 200 (Ok (VObj [])))
         (Clock 9 []) (typed_state (Clock 0 []) [])
       = (Ok tt, with_message (typed_state (Clock 0 []) []) m false)
       /\ type m = bot
       /\ content m = VStr (str "(No direct textual response)").
Proof.
  split; [reflexivity|]. split; [reflexivity|].
  destruct (missing_reply_gets_placeholder (number:=unit) every_number_truthy plain_message
              never_greater_than_zero 200 [] (Clock 9 [])
              (typed_state (Clock 0 []) []) (or_introl eq_refl) eq_refl)
    as (m & H1 & H2 & H3 & _).
  exists m. split; [exact H1|]. split; [exact H2 | exact H3].
Defined.

(** C4 on a short text. *)
Lemma formatAIResponse_unchanged_witness :
  length (str "This is a test AI response.") <= 300
  /\ formatAIResponse (str "This is a test AI response.")
     = str "This is a test AI response.".
Proof.
  assert (H : length (str "This is a test AI response.") <= 300)
    by (apply Nat.leb_le; reflexivity).
  split; [exact H|].
  apply formatAIResponse_unchanged. right. right. right. left. exact H.
Defined.

(** C5, as amended, on a reply that names three platforms. *)
Lemma formatAIResponse_lists_tokens_witness :
  has_marker sample_listing = false
  /\ 300 < length sample_listing
  /\ 3 < length (sentences_of sample_listing)
  /\ detected_tokens sample_listing
     = [str "HuggingFace"; str "kaggle.com"; str "OpenAi"; str "HuggingFace"]
  /\ (exists bodies,
        formatAIResponse sample_listing
        = str "I found several great options:" ++ [LF; LF]
          ++ concat (List.map (fun line => bullet_line (fst line) (snd line))
                       (combine (detected_tokens sample_listing) bodies))
          ++ [LF]
          ++ str "Would you like me to provide more details about any of these options?"
        /\ length bodies = 4)
  /\ fragment_ci (str "kaggle.com") sample_listing
     = Some (str " You could start with HuggingFace for models! Many people like kaggle.com for data sets? The research group OpenAi publishes papers as well.")
  /\ includes
       ([226; 8364; 162]%N
        ++ str " **kaggle.com** - You could start with HuggingFace for models! Many people like  for data sets? The research group OpenAi publishes papers as well."
        ++ [LF])
       (formatAIResponse sample_listing) = true.
Proof.
  assert (H1 : has_marker sample_listing = false) by (vm_compute; reflexivity).
  assert (H2 : 300 < length sample_listing)
    by (apply Nat.ltb_lt; vm_compute; reflexivity).
  assert (H3 : 3 < length (sentences_of sample_listing))
    by (apply Nat.ltb_lt; vm_compute; reflexivity).
  assert (H4 : 2 < length (detected_tokens sample_listing))
    by (apply Nat.ltb_lt; vm_compute; reflexivity).
  assert (H5 : detected_tokens sample_listing
               = [str "HuggingFace"; str "kaggle.com"; str "OpenAi";
                  str "HuggingFace"]) by (vm_compute; reflexivity).
  split; [exact H1|]. split; [exact H2|]. split; [exact H3|].
  split; [exact H5|].
  split; [|split; vm_compute; reflexivity].
  destruct (formatAIResponse_lists_tokens sample_listing H1 H2 H3 H4)
    as (bodies & E & F).
  exists bodies. split; [exact E|].
  apply Forall2_length in F. rewrite <- F, H5. reflexivity.
Defined.

(** C5, the claim as stated fails: in this reply the token [OpenAi] is
    preceded by a mention in lower case, in another sentence.  The bullet
    for [OpenAi] carries that earlier sentence, the lower-case mention
    still in it, and the result is not the list built from the fragments
    around the tokens' own first occurrences. *)
Lemma lower_case_mention_takes_the_bullet :
  has_marker sample_listing = false
  /\ 300 < length sample_listing
  /\ 3 < length (sentences_of sample_listing)
  /\ 2 < length (detected_tokens sample_listing)
  /\ In (str "OpenAi") (detected_tokens sample_listing)
  /\ fragment_exact (str "OpenAi") sample_listing
     = Some (str "com for data sets? The research group OpenAi publishes papers as well.")
  /\ includes
       (bullet_line (str "OpenAi")
          (str "I compared a few places for you and openai came up again and again in my notes."))
       (formatAIResponse sample_listing) = true
  /\ includes
       (bullet_line (str "OpenAi")
          (str "com for data sets? The research group  publishes papers as well."))
       (formatAIResponse sample_listing) = false
  /\ formatAIResponse sample_listing
     <> bulleted_list (fun site => fragment_exact site sample_listing)
                      (detected_tokens sample_listing).
Proof.
  split; [vm_compute; reflexivity|].
  split; [apply Nat.ltb_lt; vm_compute; reflexivity|].
  split; [apply Nat.ltb_lt; vm_compute; reflexivity|].
  split; [apply Nat.ltb_lt; vm_compute; reflexivity|].
  split; [vm_compute; tauto|].
  split; [vm_compute; reflexivity|].
  split; [vm_compute; reflexivity|].
  split; [vm_compute; reflexivity|].
  apply eqb_neq. vm_compute. reflexivity.
Qed.

(** C6 on a long reply without platform names. *)
Lemma formatAIResponse_splits_in_two_witness :
  has_marker sample_prose = false
  /\ 300 < length sample_prose
  /\ 3 < length (sentences_of sample_prose)
  /\ length (detected_tokens sample_prose) <= 2
  /\ (exists firstHalf secondHalf p1 p2,
        sentences_of sample_prose = firstHalf ++ secondHalf
        /\ length firstHalf = 3
        /\ formatAIResponse sample_prose = p1 ++ [LF; LF] ++ p2
        /\ p1 ++ str " " = concat (List.map (fun s => s ++ str ". ") firstHalf)
        /\ p2 ++ str " " = concat (List.map (fun s => s ++ str ". ") secondHalf))
  /\ formatAIResponse sample_prose
     = str "The first thing to know is that the weather in the mountains changes quickly.  Bring warm clothes even in summer.  A map and a compass are still useful when the phone has no signal."
       ++ [LF; LF]
       ++ str " Start early in the morning so that you are back before dark.  Tell somebody where you are going and when you expect to return.  With these few rules in mind a day in the hills is a pleasure.".
Proof.
  assert (H1 : has_marker sample_prose = false) by (vm_compute; reflexivity).
  assert (H2 : 300 < length sample_prose)
    by (apply Nat.ltb_lt; vm_compute; reflexivity).
  assert (H3 : 3 < length (sentences_of sample_prose))
    by (apply Nat.ltb_lt; vm_compute; reflexivity).
  assert (H4 : length (detected_tokens sample_prose) <= 2)
    by (apply Nat.leb_le; vm_compute; reflexivity).
  split; [exact H1|]. split; [exact H2|]. split; [exact H3|]. split; [exact H4|].
  split; [|vm_compute; reflexivity].
  destruct (formatAIResponse_splits_in_two sample_prose H1 H2 H3 H4)
    as (firstHalf & secondHalf & p1 & p2 & E1 & E2 & _ & E3 & E4 & E5).
  exists firstHalf, secondHalf, p1, p2.
  split; [exact E1|]. split; [rewrite E2; vm_compute; reflexivity|].
  split; [exact E3|]. split; [exact E4 | exact E5].
Defined.

(** *** The expectations of the test suite *)

Example test_suite_chat_reply :
  exists m,
    handleSubmit_settle (number:=unit) every_number_truthy plain_message
      never_greater_than_zero (Response true 200 (Ok (VObj sample_reply)))
      (Clock 9 []) (typed_state (Clock 0 []) [])
    = (Ok tt, with_message (typed_state (Clock 0 []) []) m false)
    /\ content m = VStr (str "This is a test AI response.")
    /\ toolsUsed m = Some [VStr (str "firecrawl_search")].
Proof.
  eexists. split; [reflexivity|]. split; reflexivity.
Qed.

Example test_suite_tools_fetched :
  fetchAvailableTools (number:=unit) every_number_truthy plain_message
    (Response true 200
       (Ok (VObj [(str "tools",
                   VArr [VStr (str "firecrawl_scrape");
                         VStr (str "firecrawl_search");
                         VStr (str "firecrawl_extract")])])))
    (initial_state (Clock 0 []))
  = (Ok tt,
     State (messages (initial_state (Clock 0 []))) [] false
           [VStr (str "firecrawl_scrape");
            VStr (str "firecrawl_search");
            VStr (str "firecrawl_extract")]
           false None).
Proof. reflexivity. Qed.

Example test_suite_tools_unreachable :
  fetchAvailableTools (number:=unit) every_number_truthy plain_message
    (Rejected (Error (str "TypeError") (str "Failed to fetch")))
    (initial_state (Clock 0 []))
  = (Ok tt,
     State (messages (initial_state (Clock 0 []))) [] false
           fallback_tools false (Some (str "Failed to fetch"))).
Proof. reflexivity. Qed.

Example test_suite_labels :
  statusLabel (str "localhost") = str "Local"
  /\ statusLabel (str "simple-agent-frontend.onrender.com") = str "Online"
  /\ getBackendURL (str "localhost") ++ str "/tools"
     = str "http://localhost:5000/tools".
Proof. repeat split. Qed.

(** *** More on the formatter *)

Lemma includes_app_r (p a x : jsstring) :
  includes p x = true -> includes p (a ++ x) = true.
Proof.
  intros H. induction a as [|c a IH]; [exact H|].
  simpl. rewrite IH. apply orb_true_r.
Qed.

Lemma includes_middle (p a b : jsstring) : includes p (a ++ p ++ b) = true.
Proof.
  apply includes_app_r. destruct p as [|x p]; [destruct b; reflexivity|].
  simpl. now rewrite N.eqb_refl, startsWith_self_app.
Qed.

Lemma add_bullets_extend (content : jsstring) (tokens : list jsstring) :
  forall acc, exists t, fold_left (add_bullet content) tokens acc = acc ++ t.
Proof.
  induction tokens as [|site tokens IH]; intros acc; cbn [fold_left].
  - exists []. now rewrite app_nil_r.
  - destruct (IH (add_bullet content acc site)) as (t & Ht). rewrite Ht.
    unfold add_bullet.
    destruct (String_match true (site_pattern site) content) as [m|].
    + eexists. rewrite <- app_assoc. reflexivity.
    + now exists t.
Qed.

(** What the formatter returns is the text itself or a text with a
    paragraph break. *)
Lemma formatAIResponse_same_or_broken (content : jsstring) :
  formatAIResponse content = content
  \/ includes paragraph_break (formatAIResponse content) = true.
Proof.
  unfold formatAIResponse.
  destruct (includes bullet content || includes bold content
            || includes paragraph_break content); [now left|].
  destruct ((3 <? length (sentences_of content)) && (300 <? length content));
    [|now left].
  assert (Hsplit : includes paragraph_break
                     (split_paragraphs (sentences_of content)) = true).
  { unfold split_paragraphs. cbv zeta. apply (includes_middle [LF; LF]). }
  destruct (String_match_g website_pattern content) as [tokens|];
    [|now right].
  destruct (2 <? length tokens); [|now right].
  right. destruct (add_bullets_extend content tokens list_header) as (t & ->).
  unfold list_header. rewrite <- !app_assoc.
  apply (includes_middle [LF; LF]).
Qed.

(** X12: formatting is idempotent: a text that the formatter changed
    contains a paragraph break, so formatting it again changes nothing. *)
Theorem formatAIResponse_idempotent (content : jsstring) :
  formatAIResponse (formatAIResponse content) = formatAIResponse content
  /\ (formatAIResponse content = content
      \/ includes paragraph_break (formatAIResponse content) = true).
Proof.
  split; [|apply formatAIResponse_same_or_broken].
  destruct (formatAIResponse_same_or_broken content) as [E | H].
  - now rewrite !E.
  - unfold formatAIResponse at 1. rewrite H, !orb_true_r. reflexivity.
Qed.

Lemma forallb_rev {A} (f : A -> bool) (l : list A) :
  forallb f (rev l) = forallb f l.
Proof.
  induction l as [|x l IH]; [reflexivity|].
  simpl. rewrite forallb_app, IH. simpl. rewrite andb_true_r. apply andb_comm.
Qed.

Lemma sentence_end_here (c : N) (s : jsstring) :
  match match_here false sentence_end (c :: s) with
  | Some mr => is_sentence_end c = true /\ exists m, fst mr = c :: m
  | None => is_sentence_end c = false
  end.
Proof.
  unfold match_here, sentence_end, is_sentence_end. cbn [matches].
  destruct (cmatch false (CClass (chars ".!?") false) c); [|reflexivity].
  destruct (star false (CClass (chars ".!?") false) s) as [|mr l] eqn:E.
  - exfalso. destruct s; simpl in E;
      [discriminate E|].
    destruct (cmatch false (CClass (chars ".!?") false) n); [|discriminate E].
    destruct (map _ _) in E; discriminate E.
  - simpl. split; [reflexivity|]. now exists (fst mr).
Qed.

Lemma split_loop_clean (s : jsstring) :
  forall skip seg,
    forallb (fun c => negb (is_sentence_end c)) seg = true ->
    Forall (fun x => forallb (fun c => negb (is_sentence_end c)) x = true)
           (split_loop false sentence_end skip seg s).
Proof.
  induction s as [|c s IH]; intros skip seg Hseg; cbn [split_loop].
  - constructor; [|constructor]. now rewrite forallb_rev.
  - destruct skip as [|k]; [|now apply IH].
    pose proof (sentence_end_here c s) as H.
    destruct (match_here false sentence_end (c :: s)) as [mr|].
    + destruct H as (_ & m & Hm). rewrite Hm. cbn [length].
      constructor; [now rewrite forallb_rev | now apply IH].
    + apply IH. simpl. now rewrite H, Hseg.
Qed.

Lemma split_segments_clean (content : jsstring) :
  Forall (fun x => forallb (fun c => negb (is_sentence_end c)) x = true)
         (String_split sentence_end content).
Proof.
  unfold String_split. destruct content as [|c content].
  - simpl. constructor; [reflexivity | constructor].
  - now apply split_loop_clean.
Qed.

(** X13: every sentence the formatter counts is non-blank and holds none of
    the characters [.], [!] and [?]. *)
Theorem sentences_are_clean (content : jsstring) :
  Forall (fun s => trim s <> []
                   /\ forallb (fun c => negb (is_sentence_end c)) s = true)
         (sentences_of content).
Proof.
  unfold sentences_of. apply Forall_forall. intros s Hs.
  apply filter_In in Hs as [Hin Hne]. split.
  - intros E. rewrite E in Hne. discriminate Hne.
  - pose proof (split_segments_clean content) as Hall.
    rewrite Forall_forall in Hall. now apply Hall.
Qed.

Lemma forallb_join (f : N -> bool) (sep : jsstring) (l : list jsstring) :
  forallb f sep = true -> Forall (fun x => forallb f x = true) l ->
  forallb f (join sep l) = true.
Proof.
  intros Hsep. induction 1 as [|x l Hx Hl IH]; [reflexivity|].
  cbn [join]. destruct l as [|y l]; [exact Hx|].
  rewrite !forallb_app, Hx, Hsep. exact IH.
Qed.

Lemma Forall_slices {A} (P : A -> Prop) (n : nat) (l : list A) :
  Forall P l -> Forall P (firstn n l) /\ Forall P (skipn n l).
Proof.
  intros H. rewrite <- (firstn_skipn n l) in H.
  now apply Forall_app in H.
Qed.

(** X14: the paragraph split loses the marks: in a text that the formatter
    splits in two paragraphs, every sentence ends with a full stop, and no
    exclamation or question mark of the original is left. *)
Theorem paragraph_split_keeps_no_mark (content : jsstring) :
  has_marker content = false ->
  300 < length content ->
  3 < length (sentences_of content) ->
  length (detected_tokens content) <= 2 ->
  ~ In (ch "!") (formatAIResponse content)
  /\ ~ In (ch "?") (formatAIResponse content).
Proof.
  intros Hm Hlen Hsent Htok.
  assert (E : formatAIResponse content
              = split_paragraphs (sentences_of content)).
  { unfold formatAIResponse. fold (has_marker content). rewrite Hm.
    apply Nat.ltb_lt in Hlen, Hsent. rewrite Hlen, Hsent. simpl.
    unfold detected_tokens in Htok.
    destruct (String_match_g website_pattern content) as [tokens|];
      [|reflexivity].
    apply Nat.ltb_ge in Htok. now rewrite Htok. }
  unfold split_paragraphs, slice_to, slice_from in E. cbv zeta in E.
  set (keep := fun c => negb (N.eqb c (ch "!")) && negb (N.eqb c (ch "?"))).
  assert (Hkeep : forallb keep (formatAIResponse content) = true).
  { assert (Hs : Forall (fun x => forallb keep x = true) (sentences_of content)).
    { pose proof (split_segments_clean content) as H.
      rewrite Forall_forall in H. apply Forall_forall. intros x Hx.
      unfold sentences_of in Hx. apply filter_In in Hx as [Hx _].
      pose proof (H x Hx) as Hc.
      apply (forallb_weaken (fun c => negb (is_sentence_end c))); [|exact Hc].
      intros c. unfold keep, is_sentence_end. cbn.
      rewrite !orb_false_r, !negb_true_iff, andb_true_iff, !negb_true_iff.
      rewrite !orb_false_iff, !andb_false_iff, !N.leb_gt, !N.eqb_neq. lia. }
    destruct (Forall_slices _ (length (sentences_of content) / 2) _ Hs)
      as [H1 H2].
    rewrite E. rewrite !forallb_app.
    rewrite (forallb_join keep (str ". ") _ eq_refl H1).
    rewrite (forallb_join keep (str ". ") _ eq_refl H2).
    reflexivity. }
  rewrite forallb_forall in Hkeep.
  split; intros Hin; apply Hkeep in Hin; discriminate Hin.
Qed.

(** X15: every detected token is a part of the text and is made of ASCII
    letters and digits, underscores and full stops. *)
Theorem detected_tokens_come_from_the_text (content site : jsstring) :
  In site (detected_tokens content) ->
  (exists pre post, content = pre ++ site ++ post)
  /\ forallb is_token_char site = true
  /\ Forall (fun c => (c < 128)%N) site.
Proof.
  intros H.
  pose proof (detected_token_chars content site H) as Hc.
  split; [|split; [exact Hc|]].
  - unfold detected_tokens, String_match_g in H.
    apply (match_all_part false website_pattern content 0).
    destruct (match_all false website_pattern 0 content); [destruct H | exact H].
  - apply Forall_forall. intros c Hin. apply token_char_is_ascii.
    rewrite forallb_forall in Hc. now apply Hc.
Qed.

(** *** The message renderer *)

Lemma split_at_app (sep : N) (a b : jsstring) :
  forall seg,
    split_at sep seg (a ++ sep :: b) = split_at sep seg a ++ split_at sep [] b.
Proof.
  induction a as [|c a IH]; intros seg; simpl.
  - now rewrite N.eqb_refl.
  - destruct (N.eqb c sep); [now rewrite IH | apply IH].
Qed.

Lemma split_at_whole (sep : N) (s : jsstring) :
  ~ In sep s -> forall seg, split_at sep seg s = [rev seg ++ s].
Proof.
  induction s as [|c s IH]; intros Hn seg; simpl.
  - now rewrite app_nil_r.
  - destruct (N.eqb c sep) eqn:E.
    + apply N.eqb_eq in E. exfalso. apply Hn. now left.
    + rewrite IH by (intros H; apply Hn; now right).
      simpl. now rewrite <- app_assoc.
Qed.

Lemma split_at_nonempty (sep : N) (s : jsstring) :
  forall seg, split_at sep seg s <> [].
Proof.
  induction s as [|c s IH]; intros seg; simpl; [discriminate|].
  destruct (N.eqb c sep); [discriminate | apply IH].
Qed.

Lemma join_split_at (sep : N) (s : jsstring) :
  forall seg, join [sep] (split_at sep seg s) = rev seg ++ s.
Proof.
  induction s as [|c s IH]; intros seg; cbn [split_at].
  - simpl. now rewrite app_nil_r.
  - destruct (N.eqb c sep) eqn:E.
    + apply N.eqb_eq in E. subst c.
      specialize (IH []). cbn [rev app] in IH.
      pose proof (split_at_nonempty sep s []) as Hne.
      destruct (split_at sep [] s) as [|x l]; [contradiction|].
      change (join [sep] (rev seg :: x :: l))
        with (rev seg ++ [sep] ++ join [sep] (x :: l)).
      now rewrite IH.
    + rewrite IH. simpl. now rewrite <- app_assoc.
Qed.

Lemma length_split_at (sep : N) (s : jsstring) :
  forall seg, length (split_at sep seg s) = S (count_occ N.eq_dec s sep).
Proof.
  induction s as [|c s IH]; intros seg; simpl; [reflexivity|].
  destruct (N.eqb c sep) eqn:E.
  - apply N.eqb_eq in E. destruct (N.eq_dec c sep); [|contradiction].
    simpl. now rewrite IH.
  - apply N.eqb_neq in E. destruct (N.eq_dec c sep); [contradiction|].
    apply IH.
Qed.

(** X16: rendering goes line by line.  Two texts joined by a line break
    render as the blocks of the first followed by the blocks of the
    second; there is one block for each line; and the lines joined by
    line breaks are the content again, so that nothing of it is lost
    before the lines are looked at. *)
Theorem MessageContent_is_line_wise (a b : jsstring) :
  MessageContent (a ++ [LF] ++ b) = MessageContent a ++ MessageContent b
  /\ length (MessageContent a) = S (count_occ N.eq_dec a LF)
  /\ join [LF] (lines_of a) = a.
Proof.
  unfold MessageContent, lines_of. repeat split.
  - change (a ++ [LF] ++ b) with (a ++ LF :: b).
    now rewrite split_at_app, map_app.
  - rewrite length_map. apply length_split_at.
  - apply (join_split_at LF a []).
Qed.

Lemma cmatch_lit_exact (x c : N) : cmatch false (lit x) c = N.eqb x c.
Proof.
  unfold cmatch, lit, in_range. simpl. rewrite orb_false_r.
  destruct (N.eqb x c) eqn:E.
  - apply N.eqb_eq in E. subst. now rewrite N.leb_refl.
  - apply N.eqb_neq in E.
    destruct (N.leb x c) eqn:E1; [|reflexivity].
    destruct (N.leb c x) eqn:E2; [|reflexivity].
    apply N.leb_le in E1, E2. exfalso. apply E. lia.
Qed.

Lemma matches_literal_exact (p s : jsstring) :
  matches false (literal p) s
  = if startsWith p s then [(firstn (length p) s, skipn (length p) s)] else [].
Proof.
  revert s. induction p as [|x p IH]; intros s; [reflexivity|].
  cbn [literal matches].
  destruct s as [|c s]; [reflexivity|].
  rewrite cmatch_lit_exact. cbn [startsWith].
  destruct (N.eqb x c); [|reflexivity].
  cbn [flat_map fst snd app map andb]. rewrite IH.
  destruct (startsWith p s); reflexivity.
Qed.

Lemma bold_span_needs_marker (s : jsstring) :
  startsWith bold s = false -> bold_span s = None.
Proof.
  intros H. unfold bold_span. now rewrite matches_literal_exact, H.
Qed.

Lemma replace_bold_unmarked (wrap : jsstring -> jsstring) (s : jsstring) :
  includes bold s = false -> replace_bold wrap 0 s = s.
Proof.
  induction s as [|c s IH]; intros H; [reflexivity|].
  cbn [includes] in H. apply orb_false_iff in H as [H1 H2].
  cbn [replace_bold]. now rewrite (bold_span_needs_marker _ H1), (IH H2).
Qed.

(** X17: a line without bold marker reaches the page as markup exactly as it
    is: a non-blank line of one piece that does not start with the bullet
    marker is a paragraph whose markup is the line itself, with nothing
    escaped. *)
Theorem unmarked_line_is_markup_as_is (line : jsstring) :
  ~ In LF line ->
  trim line <> [] ->
  startsWith bullet (trim line) = false ->
  includes bold line = false ->
  MessageContent line = [Paragraph line].
Proof.
  intros Hlf Hne Hb Hbold.
  unfold MessageContent, lines_of. rewrite (split_at_whole LF line Hlf []).
  cbn [rev app List.map]. unfold render_line.
  destruct (trim line) as [|c t] eqn:E; [contradiction|].
  cbn [length Nat.ltb Nat.leb negb]. rewrite Hb, Hbold.
  cbn [andb]. now rewrite replace_bold_unmarked.
Qed.

(** X18: every error message starts with the heading and a spacer: its
    first line is rendered as a heading, the bold markers taken off, and
    its second line is blank. *)
Theorem error_message_renders_heading (e : js_error) :
  exists rest,
    MessageContent (errorMessage e)
    = Heading ([226; 353; 160; 239; 184]%N ++ str " Connection Error")
        :: Spacer :: rest
    /\ rest <> [].
Proof.
  unfold errorMessage, error_header.
  set (text := if JsString.eqb (name e) (str "AbortError") then timeout_text
               else _).
  exists (MessageContent text). split.
  - unfold MessageContent, lines_of.
    replace (([226; 353; 160; 239; 184]%N ++ str " **Connection Error**" ++ [LF; LF])
             ++ text)
      with (([226; 353; 160; 239; 184]%N ++ str " **Connection Error**")
            ++ LF :: ([] ++ LF :: text))
      by (rewrite <- !app_assoc; reflexivity).
    rewrite !split_at_app, !map_app. reflexivity.
  - unfold MessageContent, lines_of. intros E. apply map_eq_nil in E.
    now apply split_at_nonempty in E.
Qed.

(** *** The tool icons *)

(** X19: the generic icon is for the tools whose name holds none of the four
    keywords; a name that holds [search] gets the search icon whatever
    else it holds; and no tool whose name starts with [firecrawl] gets the
    generic icon, since that name holds [crawl]. *)
Theorem generic_icon_only_without_keyword (tool : jsstring) :
  (getToolIcon tool = Zap <->
   includes (str "search") tool = false
   /\ includes (str "scrape") tool = false
   /\ includes (str "extract") tool = false
   /\ includes (str "crawl") tool = false)
  /\ (includes (str "search") tool = true -> getToolIcon tool = Search)
  /\ (startsWith (str "firecrawl") tool = true -> getToolIcon tool <> Zap).
Proof.
  assert (Hiff : getToolIcon tool = Zap <->
                 includes (str "search") tool = false
                 /\ includes (str "scrape") tool = false
                 /\ includes (str "extract") tool = false
                 /\ includes (str "crawl") tool = false).
  { unfold getToolIcon.
    destruct (includes (str "search") tool), (includes (str "scrape") tool),
      (includes (str "extract") tool), (includes (str "crawl") tool);
      split; try discriminate; try tauto; intros (A & B & C & D); discriminate. }
  split; [exact Hiff|]. split.
  - intros H. unfold getToolIcon. now rewrite H.
  - intros H E. apply Hiff in E as (_ & _ & _ & E).
    apply startsWith_app_inv in H. rewrite H in E.
    change (str "firecrawl") with (str "fire" ++ str "crawl") in E.
    rewrite <- app_assoc in E.
    rewrite (includes_middle (str "crawl") (str "fire")) in E. discriminate E.
Qed.

(** *** A bullet line of the formatter, rendered *)

Lemma trimStart_idempotent (s : jsstring) : trimStart (trimStart s) = trimStart s.
Proof.
  induction s as [|c s IH]; [reflexivity|].
  simpl. destruct (is_space c) eqn:E; [exact IH|].
  simpl. now rewrite E.
Qed.

Lemma trimEnd_trim (x : jsstring) : trimEnd (trim x) = trim x.
Proof.
  unfold trim, trimEnd. now rewrite rev_involutive, trimStart_idempotent.
Qed.

Lemma trimStart_app (u v : jsstring) :
  trimStart u <> [] -> trimStart (u ++ v) = trimStart u ++ v.
Proof.
  induction u as [|c u IH]; intros H; [contradiction|].
  simpl in *. destruct (is_space c); [now apply IH | reflexivity].
Qed.

Lemma trimEnd_app (a b : jsstring) :
  trimEnd b <> [] -> trimEnd (a ++ b) = a ++ trimEnd b.
Proof.
  unfold trimEnd. intros H. rewrite rev_app_distr, trimStart_app.
  - now rewrite rev_app_distr, rev_involutive.
  - intros E. apply H. now rewrite E.
Qed.

Lemma token_char_is_plain (c : N) :
  is_token_char c = true ->
  N.eqb (ch "*") c = false /\ cmatch false any_char c = true /\ c <> LF.
Proof.
  intros H.
  assert (R : (97 <= c <= 122 \/ 65 <= c <= 90 \/ 48 <= c <= 57 \/ c = 95
               \/ c = 46)%N).
  { unfold is_token_char, is_dot in H. cbn in H.
    rewrite !orb_false_r in H.
    repeat rewrite orb_true_iff in H. repeat rewrite andb_true_iff in H.
    repeat rewrite N.leb_le in H. rewrite N.eqb_eq in H. lia. }
  split; [|split].
  - apply N.eqb_neq. change (ch "*") with 42%N. lia.
  - unfold cmatch, any_char. cbn.
    rewrite !orb_false_r. apply negb_true_iff.
    repeat rewrite orb_false_iff. repeat rewrite andb_false_iff.
    repeat rewrite N.leb_gt. lia.
  - unfold LF. lia.
Qed.

Lemma flat_map_map_cons (c : N) (r : regex) (l : list (jsstring * jsstring)) :
  flat_map (fun inner =>
              List.map (fun closing => (fst inner, snd closing))
                       (matches false r (snd inner)))
           (List.map (fun mr => (c :: fst mr, snd mr)) l)
  = List.map (fun mr => (c :: fst mr, snd mr))
      (flat_map (fun inner =>
                   List.map (fun closing => (fst inner, snd closing))
                            (matches false r (snd inner)))
                l).
Proof.
  induction l as [|x l IH]; [reflexivity|].
  cbn [List.map flat_map fst snd]. rewrite IH, map_app, map_map. reflexivity.
Qed.

(** In [**site**...] with no star and no line terminator in [site], the
    lazy group stops at the end of [site]. *)
Lemma lazy_group_is_site (site r : jsstring) :
  forallb is_token_char site = true ->
  exists others,
    flat_map (fun inner =>
                List.map (fun closing => (fst inner, snd closing))
                         (matches false (literal bold) (snd inner)))
             (star_lazy false any_char (site ++ bold ++ r))
    = (site, r) :: others.
Proof.
  induction site as [|c site IH]; intros H.
  - cbn [app]. destruct (bold ++ r) as [|x y] eqn:E; [discriminate E|].
    rewrite <- E. change (star_lazy false any_char (bold ++ r))
      with (star_lazy false any_char (ch "*" :: ch "*" :: r)).
    cbn [star_lazy flat_map fst snd]. rewrite matches_literal_exact.
    change (startsWith bold (ch "*" :: ch "*" :: r)) with true.
    cbv iota. cbn [List.map app fst snd]. eexists. reflexivity.
  - cbn [forallb] in H. apply andb_true_iff in H as [Hc Hs].
    destruct (token_char_is_plain c Hc) as (Hstar & Hany & _).
    destruct (IH Hs) as (others & Ho).
    change ((c :: site) ++ bold ++ r) with (c :: (site ++ bold ++ r)).
    cbn [star_lazy flat_map fst snd]. rewrite Hany, matches_literal_exact.
    assert (E : startsWith bold (c :: site ++ bold ++ r) = false).
    { change bold with (ch "*" :: [ch "*"]). cbn [startsWith]. now rewrite Hstar. }
    rewrite E. cbn [List.map app].
    rewrite flat_map_map_cons, Ho. cbn [List.map fst snd]. eexists. reflexivity.
Qed.

Lemma bold_span_of_site (site r : jsstring) :
  forallb is_token_char site = true ->
  bold_span (bold ++ site ++ bold ++ r) = Some (site, r).
Proof.
  intros H. unfold bold_span. rewrite matches_literal_exact.
  rewrite startsWith_self_app.
  change (skipn (length bold) (bold ++ site ++ bold ++ r))
    with (site ++ bold ++ r).
  cbn [flat_map fst snd]. rewrite app_nil_r.
  destruct (lazy_group_is_site site r H) as (others & ->). reflexivity.
Qed.

Lemma replace_bold_skip (wrap : jsstring -> jsstring) (a r : jsstring) :
  replace_bold wrap (length a) (a ++ r) = replace_bold wrap 0 r.
Proof.
  induction a as [|c a IH]; [reflexivity|].
  cbn [length app replace_bold]. exact IH.
Qed.

Lemma replace_bold_at_match (wrap : jsstring -> jsstring) (c : N)
  (s inner rest : jsstring) :
  bold_span (c :: s) = Some (inner, rest) ->
  replace_bold wrap 0 (c :: s)
  = wrap inner ++ replace_bold wrap (length s - length rest) s.
Proof.
  intros H. cbn [replace_bold]. now rewrite H.
Qed.

Lemma replace_bold_site (wrap : jsstring -> jsstring) (site r : jsstring) :
  forallb is_token_char site = true ->
  replace_bold wrap 0 (bold ++ site ++ bold ++ r)
  = wrap site ++ replace_bold wrap 0 r.
Proof.
  intros H.
  pose proof (bold_span_of_site site r H) as Hspan.
  change (bold ++ site ++ bold ++ r)
    with (ch "*" :: (ch "*" :: site ++ bold ++ r)) in *.
  rewrite (replace_bold_at_match wrap _ _ _ _ Hspan). f_equal.
  replace (ch "*" :: site ++ bold ++ r)
    with ((ch "*" :: site ++ bold) ++ r)
    by (simpl; now rewrite <- app_assoc).
  rewrite length_app, Nat.add_sub. apply replace_bold_skip.
Qed.

(** The characters of what [trim] and [replace] return, and of a match,
    are characters of the text. *)
Lemma In_trimStart (c : N) (s : jsstring) : In c (trimStart s) -> In c s.
Proof.
  induction s as [|x s IH]; [intros []|].
  cbn [trimStart]. destruct (is_space x); [|exact (fun H => H)].
  intros H. right. now apply IH.
Qed.

Lemma In_trim (c : N) (s : jsstring) : In c (trim s) -> In c s.
Proof.
  unfold trim, trimEnd. intros H.
  apply In_trimStart. apply in_rev. apply In_trimStart. now apply in_rev in H.
Qed.

Lemma In_replace_empty (c : N) (p s : jsstring) :
  In c (replace_empty p s) -> In c s.
Proof.
  induction s as [|x s IH]; cbn [replace_empty].
  - destruct (startsWith p []); [|intros []].
    rewrite skipn_nil. intros [].
  - destruct (startsWith p (x :: s)).
    + intros H. rewrite <- (firstn_skipn (length p) (x :: s)).
      apply in_or_app. now right.
    + intros [H | H]; [now left | right; now apply IH].
Qed.

Lemma In_exec (i : bool) (r : regex) (c : N) (s m : jsstring) :
  exec i r s = Some m -> In c m -> In c s.
Proof.
  revert m. induction s as [|x s IH]; intros m; cbn [exec].
  - destruct (match_here i r []) as [mr|] eqn:E; [|discriminate].
    intros [= <-] H. rewrite (match_here_sound _ _ _ _ E).
    apply in_or_app. now left.
  - destruct (match_here i r (x :: s)) as [mr|] eqn:E.
    + intros [= <-] H. rewrite (match_here_sound _ _ _ _ E).
      apply in_or_app. now left.
    + intros H Hc. right. now apply (IH m).
Qed.

Lemma In_body_of (c : N) (site content : jsstring) :
  In c (body_of (fragment_ci site content) site) -> In c content.
Proof.
  unfold body_of. rewrite <- exec_site_pattern. unfold String_match.
  destruct (exec true (site_pattern site) content) as [m|] eqn:E; [|intros []].
  intros H. apply In_trim, In_replace_empty in H. exact (In_exec _ _ _ _ _ E H).
Qed.

(** How one bullet line is rendered: the token in [strong], a dash, and
    the body when there is one. *)
Lemma render_bullet_line (site x : jsstring) :
  forallb is_token_char site = true ->
  ~ In LF (trim x) ->
  ~ In (ch "*") (trim x) ->
  MessageContent (bullet ++ str " **" ++ site ++ str "** - " ++ trim x)
  = [BulletRow (strong site ++ str " -"
                ++ match trim x with
                   | [] => []
                   | _ :: _ => str " " ++ trim x
                   end)].
Proof.
  intros Hsite Hlf Hstar.
  set (body := trim x) in *.
  assert (Hbold : includes bold body = false)
    by (now apply includes_absent_head).
  set (line := bullet ++ str " **" ++ site ++ str "** - " ++ body).
  assert (Hline : ~ In LF line).
  { unfold line. intros H.
    apply in_app_or in H as [H | H]; [vm_compute in H; intuition discriminate|].
    apply in_app_or in H as [H | H]; [vm_compute in H; intuition discriminate|].
    apply in_app_or in H as [H | H].
    - rewrite forallb_forall in Hsite.
      destruct (token_char_is_plain LF (Hsite LF H)) as (_ & _ & E). now apply E.
    - apply in_app_or in H as [H | H]; [vm_compute in H; intuition discriminate|].
      contradiction. }
  unfold MessageContent, lines_of.
  rewrite (split_at_whole LF line Hline []).
  cbn [rev app List.map]. f_equal.
  assert (Hend : trimEnd body = body) by apply trimEnd_trim.
  assert (Htail : trimEnd (str " - " ++ body)
                  = str " -" ++ match body with
                                | [] => []
                                | _ :: _ => str " " ++ body
                                end).
  { destruct body as [|b body'] eqn:Eb; [reflexivity|].
    change (str " - " ++ b :: body') with (str " - " ++ (b :: body')).
    rewrite trimEnd_app by (rewrite Hend; discriminate).
    now rewrite Hend. }
  assert (Hne : trimEnd (str " - " ++ body) <> []).
  { rewrite Htail. discriminate. }
  assert (Htrim : trim line
                  = bullet ++ str " **" ++ site ++ str "**"
                      ++ trimEnd (str " - " ++ body)).
  { unfold trim. change (trimStart line) with line. unfold line.
    change (str "** - " ++ body) with (str "**" ++ str " - " ++ body).
    replace (bullet ++ str " **" ++ site ++ str "**" ++ str " - " ++ body)
      with ((bullet ++ str " **" ++ site ++ str "**") ++ (str " - " ++ body))
      by (now rewrite <- !app_assoc).
    rewrite trimEnd_app by exact Hne. now rewrite <- !app_assoc. }
  unfold render_line. rewrite Htrim.
  assert (Hlen : negb (0 <? length (bullet ++ str " **" ++ site ++ str "**"
                                      ++ trimEnd (str " - " ++ body))) = false)
    by reflexivity.
  rewrite Hlen, startsWith_self_app. f_equal.
  change (replace_empty bullet line)
    with (ch " " :: bold ++ site ++ bold ++ str " - " ++ body).
  assert (Ht2 : trim (ch " " :: bold ++ site ++ bold ++ str " - " ++ body)
                = bold ++ site ++ bold ++ trimEnd (str " - " ++ body)).
  { unfold trim.
    change (trimStart (ch " " :: bold ++ site ++ bold ++ str " - " ++ body))
      with (bold ++ site ++ bold ++ str " - " ++ body).
    replace (bold ++ site ++ bold ++ str " - " ++ body)
      with ((bold ++ site ++ bold) ++ (str " - " ++ body))
      by (now rewrite <- !app_assoc).
    rewrite trimEnd_app by exact Hne. now rewrite <- !app_assoc. }
  rewrite Ht2, (replace_bold_site strong site _ Hsite).
  rewrite replace_bold_unmarked; [now rewrite Htail|].
  apply includes_absent_head. rewrite Htail. intros H.
  change (In (ch "*") (str " -" ++ match body with
                                   | [] => []
                                   | _ :: _ => str " " ++ body
                                   end)) in H.
  apply in_app_or in H as [H | H]; [vm_compute in H; intuition discriminate|].
  destruct body; [destruct H|].
  apply in_app_or in H as [H | H]; [vm_compute in H; intuition discriminate|].
  now apply Hstar.
Qed.

Lemma MessageContent_app (a b : jsstring) :
  MessageContent (a ++ LF :: b) = MessageContent a ++ MessageContent b.
Proof.
  unfold MessageContent, lines_of. now rewrite split_at_app, map_app.
Qed.

(** Bullet lines are rendered one by one. *)
Lemma render_bullet_lines (lines : list (jsstring * jsstring)) (rest : jsstring) :
  Forall (fun line => forallb is_token_char (fst line) = true
                      /\ (exists x, snd line = trim x)
                      /\ ~ In LF (snd line)
                      /\ ~ In (ch "*") (snd line)) lines ->
  MessageContent
    (concat (List.map (fun line => bullet_line (fst line) (snd line)) lines)
     ++ rest)
  = List.map (fun line =>
                BulletRow (strong (fst line) ++ str " -"
                           ++ match snd line with
                              | [] => []
                              | _ :: _ => str " " ++ snd line
                              end)) lines
    ++ MessageContent rest.
Proof.
  induction 1 as [|[site body] lines (Hs & (x & Hx) & Hlf & Hstar) _ IH];
    [reflexivity|].
  cbn [List.map concat fst snd] in *. subst body.
  unfold bullet_line at 1.
  replace ((bullet ++ str " **" ++ site ++ str "** - " ++ trim x ++ [LF])
           ++ concat (List.map (fun line => bullet_line (fst line) (snd line)) lines))
    with ((bullet ++ str " **" ++ site ++ str "** - " ++ trim x)
          ++ LF :: concat (List.map (fun line => bullet_line (fst line) (snd line))
                             lines))
    by (now rewrite <- !app_assoc).
  rewrite <- app_assoc. cbn [app].
  rewrite MessageContent_app, IH, (render_bullet_line site x Hs Hlf Hstar).
  reflexivity.
Qed.

(** X20: the list the formatter synthesizes is rendered as a list.  For a
    reply of one line without asterisk that the formatter turns into a
    list, the page shows the header as a paragraph, a spacer, one bullet
    row for each detected token in order, a spacer, and the closing
    invitation as a paragraph; the markup of a row is the token within
    [strong], a dash, and the body of the token's bullet line as it is,
    when it is not empty. *)
Theorem synthesized_list_renders_as_rows (content : jsstring) :
  has_marker content = false ->
  300 < length content ->
  3 < length (sentences_of content) ->
  2 < length (detected_tokens content) ->
  ~ In LF content ->
  ~ In (ch "*") content ->
  exists bodies,
    length bodies = length (detected_tokens content)
    /\ formatAIResponse content
       = str "I found several great options:" ++ [LF; LF]
         ++ concat (List.map (fun line => bullet_line (fst line) (snd line))
                             (combine (detected_tokens content) bodies))
         ++ [LF]
         ++ str "Would you like me to provide more details about any of these options?"
    /\ MessageContent (formatAIResponse content)
       = Paragraph (str "I found several great options:")
         :: Spacer
         :: List.map (fun line =>
                        BulletRow (str "<strong>" ++ fst line ++ str "</strong> -"
                                   ++ match snd line with
                                      | [] => []
                                      | _ :: _ => str " " ++ snd line
                                      end))
                     (combine (detected_tokens content) bodies)
         ++ [Spacer;
             Paragraph (str "Would you like me to provide more details about any of these options?")].
Proof.
  intros Hm Hlen Hsent Htok Hlf Hstar.
  pose proof (formatAIResponse_list_shape content Hm Hlen Hsent Htok) as E.
  set (bodies := List.map (fun site => body_of (fragment_ci site content) site)
                          (detected_tokens content)) in *.
  exists bodies. split; [apply length_map|].
  split.
  { rewrite E. unfold list_header, list_footer. now rewrite <- !app_assoc. }
  assert (Hgood : Forall (fun line => forallb is_token_char (fst line) = true
                                      /\ (exists x, snd line = trim x)
                                      /\ ~ In LF (snd line)
                                      /\ ~ In (ch "*") (snd line))
                         (combine (detected_tokens content) bodies)).
  { apply Forall_forall. intros [site body] Hin.
    assert (Hsite : In site (detected_tokens content))
      by (now apply in_combine_l in Hin).
    assert (Hbody : body = body_of (fragment_ci site content) site).
    { unfold bodies in Hin. clear - Hin.
      induction (detected_tokens content) as [|s l IH]; [destruct Hin|].
      cbn [List.map combine] in Hin. destruct Hin as [[= -> ->] | Hin];
        [reflexivity | now apply IH]. }
    cbn [fst snd]. split; [|split; [|split]].
    - now apply (detected_token_chars content).
    - rewrite Hbody. unfold body_of.
      destruct (fragment_ci site content) as [f|].
      + now exists (replace_empty site f).
      + now exists [].
    - rewrite Hbody. intros H. apply Hlf. now apply In_body_of in H.
    - rewrite Hbody. intros H. apply Hstar. now apply In_body_of in H. }
  rewrite E. unfold list_header, list_footer.
  change (str "I found several great options:" ++ [LF; LF])
    with (str "I found several great options:" ++ LF :: [] ++ [LF]).
  rewrite <- !app_assoc. cbn [app].
  rewrite MessageContent_app.
  change (LF :: concat (List.map (fun line => bullet_line (fst line) (snd line))
                          (combine (detected_tokens content) bodies))
             ++ LF :: str "Would you like me to provide more details about any of these options?")
    with ([] ++ LF :: concat (List.map (fun line => bullet_line (fst line) (snd line))
                          (combine (detected_tokens content) bodies))
             ++ LF :: str "Would you like me to provide more details about any of these options?").
  rewrite MessageContent_app, (render_bullet_lines _ _ Hgood).
  change (LF :: str "Would you like me to provide more details about any of these options?")
    with ([] ++ LF :: str "Would you like me to provide more details about any of these options?").
  rewrite MessageContent_app.
  change (MessageContent (str "I found several great options:"))
    with [Paragraph (str "I found several great options:")].
  change (MessageContent [] ++ MessageContent (str "Would you like me to provide more details about any of these options?"))
    with [Spacer;
          Paragraph (str "Would you like me to provide more details about any of these options?")].
  change (MessageContent []) with [Spacer].
  cbn [app]. do 2 f_equal. f_equal.
  apply map_ext. intros line. unfold strong.
  now rewrite <- !app_assoc.
Qed.

(** *** The further properties on the data of the test suite *)

(** X2 on the send of the test suite, with more text typed during and
    after the request. *)
Lemma one_send_at_a_time_witness :
  trim (inputValue (hello_state (number:=unit))) <> []
  /\ isLoading (hello_state (number:=unit)) = false
  /\ handleSubmit_start (number:=unit) every_number_truthy (str "localhost")
       (react every_number_truthy plain_message never_greater_than_zero
          (react every_number_truthy plain_message never_greater_than_zero
             hello_state (SubmitAsked (str "localhost") hello_state (Clock 5 [])))
          (InputChanged (str "And then?")))
       (Clock 12 [])
       (react every_number_truthy plain_message never_greater_than_zero
          (react every_number_truthy plain_message never_greater_than_zero
             hello_state (SubmitAsked (str "localhost") hello_state (Clock 5 [])))
          (InputChanged (str "And then?")))
     = (Ok None,
        react every_number_truthy plain_message never_greater_than_zero
          (react every_number_truthy plain_message never_greater_than_zero
             hello_state (SubmitAsked (str "localhost") hello_state (Clock 5 [])))
          (InputChanged (str "And then?"))).
Proof.
  assert (H1 : trim (inputValue (hello_state (number:=unit))) <> [])
    by (intros E; discriminate E).
  split; [exact H1|]. split; [reflexivity|].
  exact (proj1 (one_send_at_a_time (number:=unit) every_number_truthy plain_message
                  never_greater_than_zero (str "localhost") hello_state
                  (Clock 5 []) (Clock 9 []) (Clock 12 []) (str "And then?")
                  test_response H1 eq_refl)).
Defined.

(** X3 on the send of the test suite followed by a second question. *)
Lemma next_send_carries_the_exchange_witness :
  trim (inputValue (hello_state (number:=unit))) <> []
  /\ isLoading (hello_state (number:=unit)) = false
  /\ trim (str "And then?") <> []
  /\ exists req st',
       handleSubmit_start (number:=unit) every_number_truthy (str "localhost")
         (react every_number_truthy plain_message never_greater_than_zero
            (snd (handleSubmit every_number_truthy plain_message
                    never_greater_than_zero (str "localhost") hello_state
                    (Clock 5 []) test_response (Clock 9 []) hello_state))
            (InputChanged (str "And then?")))
         (Clock 12 [])
         (react every_number_truthy plain_message never_greater_than_zero
            (snd (handleSubmit every_number_truthy plain_message
                    never_greater_than_zero (str "localhost") hello_state
                    (Clock 5 []) test_response (Clock 9 []) hello_state))
            (InputChanged (str "And then?")))
       = (Ok (Some req), st')
       /\ body_message req = VStr (str "And then?")
       /\ length (body_history req) = 3.
Proof.
  assert (H1 : trim (inputValue (hello_state (number:=unit))) <> [])
    by (intros E; discriminate E).
  assert (H3 : trim (str "And then?") <> []) by (intros E; discriminate E).
  split; [exact H1|]. split; [reflexivity|]. split; [exact H3|].
  destruct (next_send_carries_the_exchange (number:=unit) every_number_truthy
              plain_message never_greater_than_zero (str "localhost") hello_state
              (Clock 5 []) (Clock 9 []) (Clock 12 []) test_response
              (str "And then?") H1 eq_refl H3)
    as (botMessage & req & st' & _ & _ & Hs & _ & Hm & Hh).
  exists req, st'. split; [exact Hs|]. split; [exact Hm|].
  rewrite Hh. reflexivity.
Defined.

(** X6 on the state of the test suite's send. *)
Lemma send_button_follows_the_guard_witness :
  send_disabled (number:=unit) every_number_truthy hello_state = false
  /\ send_disabled every_number_truthy
       (snd (handleSubmit (number:=unit) every_number_truthy plain_message
               never_greater_than_zero (str "localhost") hello_state
               (Clock 5 []) test_response (Clock 9 []) hello_state)) = true.
Proof.
  split; [reflexivity|].
  exact (proj2 (proj2 (proj2
           (proj2 (send_button_follows_the_guard (number:=unit) every_number_truthy
                     plain_message never_greater_than_zero (str "localhost")
                     hello_state (Clock 5 []) (Clock 9 []) test_response)
                  eq_refl)))).
Defined.

(** X7 on a reply whose tool calls end with a [null]. *)
Lemma malformed_body_gets_error_message_witness :
  In (VNull (number:=unit))
     [VObj [(str "name", VStr (str "firecrawl_search"))]; VNull]
  /\ handleSubmit_settle (number:=unit) every_number_truthy plain_message
       never_greater_than_zero
       (Response true 200 (Ok (VObj reply_with_null_call))) (Clock 9 [])
       hello_state
     = (Ok tt,
        with_message hello_state
          (Message 10 bot
             (VStr (errorMessage
                      (TypeError plain_message (ReadOfNullish (str "name")))))
             (localeTime (Clock 9 [])) None) false).
Proof.
  assert (H : In (VNull (number:=unit))
                 [VObj [(str "name", VStr (str "firecrawl_search"))]; VNull])
    by (right; left; reflexivity).
  split; [exact H|].
  exact (proj2 (malformed_body_gets_error_message (number:=unit) every_number_truthy
                  plain_message never_greater_than_zero 200 (Clock 9 [])
                  hello_state)
               reply_with_null_call _ eq_refl H).
Defined.

(** X8 on a reply whose text is an array holding the bold marker. *)
Lemma array_reply_is_stored_and_breaks_rendering_witness :
  lookup (number:=unit) (str "ai_message") reply_with_array_text
  = VArr [VStr (str "**")]
  /\ well_formed_tool_calls
       (lookup (number:=unit) (str "tool_calls") reply_with_array_text) = true
  /\ exists m,
       handleSubmit_settle (number:=unit) every_number_truthy plain_message
         never_greater_than_zero
         (Response true 200 (Ok (VObj reply_with_array_text))) (Clock 9 [])
         hello_state
       = (Ok tt, with_message hello_state m false)
       /\ content m = VArr [VStr (str "**")]
       /\ render_message_body plain_message m
          = Throw (TypeError plain_message (NotAFunction (str "content.split"))).
Proof.
  split; [reflexivity|]. split; [reflexivity|].
  destruct (array_reply_is_stored_and_breaks_rendering (number:=unit)
              every_number_truthy plain_message never_greater_than_zero 200
              reply_with_array_text (l:=[VStr (str "**")]) (Clock 9 [])
              hello_state eq_refl eq_refl eq_refl)
    as (m & H1 & _ & H2 & H3).
  exists m. split; [exact H1|]. split; [exact H2 | exact H3].
Defined.

(** X9 on the reply of the test suite, which names one tool. *)
Lemma tools_used_shown_for_named_calls_witness :
  textual_or_absent (lookup (number:=unit) (str "ai_message") sample_reply) = true
  /\ well_formed_tool_calls (lookup (number:=unit) (str "tool_calls") sample_reply)
     = true
  /\ exists m,
       handleSubmit_settle (number:=unit) every_number_truthy plain_message
         never_greater_than_zero test_response (Clock 9 []) hello_state
       = (Ok tt, with_message hello_state m false)
       /\ shows_tools_used m = true.
Proof.
  split; [reflexivity|]. split; [reflexivity|].
  exact (proj2 (tools_used_shown_for_named_calls (number:=unit) every_number_truthy
                  plain_message never_greater_than_zero test_response 200
                  sample_reply (Clock 9 []) hello_state)
               eq_refl eq_refl).
Defined.

(** X11 on a tool list that holds a number. *)
Lemma unchecked_tool_entries_break_the_chips_witness :
  lookup (number:=unit) (str "tools") (tools_with_number tt)
  = VArr [VStr (str "firecrawl_search"); VNum tt]
  /\ In (VNum tt) [VStr (str "firecrawl_search"); VNum tt]
  /\ availableTools
       (snd (fetchAvailableTools (number:=unit) every_number_truthy plain_message
               (Response true 200 (Ok (VObj (tools_with_number tt))))
               (initial_state (Clock 0 []))))
     = [VStr (str "firecrawl_search"); VNum tt]
  /\ exists e,
       renderToolsSection plain_message
         (snd (fetchAvailableTools (number:=unit) every_number_truthy plain_message
                 (Response true 200 (Ok (VObj (tools_with_number tt))))
                 (initial_state (Clock 0 []))))
       = Throw e.
Proof.
  assert (H : In (VNum tt) [VStr (number:=unit) (str "firecrawl_search"); VNum tt])
    by (right; left; reflexivity).
  split; [reflexivity|]. split; [exact H|].
  destruct (unchecked_tool_entries_break_the_chips (number:=unit) every_number_truthy
              plain_message 200 (tools_with_number tt)
              (l:=[VStr (str "firecrawl_search"); VNum tt]) tt
              (initial_state (Clock 0 [])) eq_refl H)
    as (H1 & _ & H2).
  split; [exact H1 | exact H2].
Defined.

(** X14 on a long reply with an exclamation and a question. *)
Lemma paragraph_split_keeps_no_mark_witness :
  has_marker sample_prose = false
  /\ 300 < length sample_prose
  /\ 3 < length (sentences_of sample_prose)
  /\ length (detected_tokens sample_prose) <= 2
  /\ In (ch "!") sample_prose
  /\ In (ch "?") sample_prose
  /\ ~ In (ch "!") (formatAIResponse sample_prose)
  /\ ~ In (ch "?") (formatAIResponse sample_prose).
Proof.
  assert (H1 : has_marker sample_prose = false) by (vm_compute; reflexivity).
  assert (H2 : 300 < length sample_prose)
    by (apply Nat.ltb_lt; vm_compute; reflexivity).
  assert (H3 : 3 < length (sentences_of sample_prose))
    by (apply Nat.ltb_lt; vm_compute; reflexivity).
  assert (H4 : length (detected_tokens sample_prose) <= 2)
    by (apply Nat.leb_le; vm_compute; reflexivity).
  split; [exact H1|]. split; [exact H2|]. split; [exact H3|]. split; [exact H4|].
  split.
  { assert (E : existsb (N.eqb (ch "!")) sample_prose = true)
      by (vm_compute; reflexivity).
    apply existsb_exists in E as (x & Hx & Hq).
    apply N.eqb_eq in Hq. now subst x. }
  split.
  { assert (E : existsb (N.eqb (ch "?")) sample_prose = true)
      by (vm_compute; reflexivity).
    apply existsb_exists in E as (x & Hx & Hq).
    apply N.eqb_eq in Hq. now subst x. }
  exact (paragraph_split_keeps_no_mark sample_prose H1 H2 H3 H4).
Defined.

(** X15 on a reply that names platforms: the token [kaggle.com]. *)
Lemma detected_tokens_come_from_the_text_witness :
  In (str "kaggle.com") (detected_tokens sample_listing)
  /\ (exists pre post, sample_listing = pre ++ str "kaggle.com" ++ post)
  /\ forallb is_token_char (str "kaggle.com") = true.
Proof.
  assert (H : In (str "kaggle.com") (detected_tokens sample_listing)).
  { assert (E : existsb (JsString.eqb (str "kaggle.com"))
                        (detected_tokens sample_listing) = true)
      by (vm_compute; reflexivity).
    apply existsb_exists in E as (x & Hx & Hq).
    apply eqb_eq in Hq. now subst x. }
  split; [exact H|].
  destruct (detected_tokens_come_from_the_text sample_listing (str "kaggle.com") H)
    as (H1 & H2 & _).
  split; [exact H1 | exact H2].
Defined.

(** X17 on a line that holds a tag. *)
Lemma unmarked_line_is_markup_as_is_witness :
  ~ In LF (str "See <b>this</b> page.")
  /\ trim (str "See <b>this</b> page.") <> []
  /\ startsWith bullet (trim (str "See <b>this</b> page.")) = false
  /\ includes bold (str "See <b>this</b> page.") = false
  /\ MessageContent (str "See <b>this</b> page.")
     = [Paragraph (str "See <b>this</b> page.")].
Proof.
  assert (H1 : ~ In LF (str "See <b>this</b> page.")).
  { intros H. assert (E : existsb (N.eqb LF) (str "See <b>this</b> page.") = true).
    { apply existsb_exists. exists LF. split; [exact H | apply N.eqb_refl]. }
    vm_compute in E. discriminate E. }
  assert (H2 : trim (str "See <b>this</b> page.") <> [])
    by (intros E; discriminate E).
  split; [exact H1|]. split; [exact H2|].
  split; [reflexivity|]. split; [reflexivity|].
  exact (unmarked_line_is_markup_as_is (str "See <b>this</b> page.") H1 H2
           eq_refl eq_refl).
Defined.

(** X19 on the search tool of the test suite. *)
Lemma generic_icon_only_without_keyword_witness :
  includes (str "search") (str "firecrawl_search") = true
  /\ startsWith (str "firecrawl") (str "firecrawl_map") = true
  /\ getToolIcon (str "firecrawl_search") = Search
  /\ getToolIcon (str "firecrawl_map") <> Zap.
Proof.
  split; [reflexivity|]. split; [reflexivity|]. split.
  - exact (proj1 (proj2 (generic_icon_only_without_keyword (str "firecrawl_search")))
                 eq_refl).
  - exact (proj2 (proj2 (generic_icon_only_without_keyword (str "firecrawl_map")))
                 eq_refl).
Defined.

(** X20 on a reply that names three platforms. *)
Lemma synthesized_list_renders_as_rows_witness :
  has_marker sample_listing = false
  /\ 300 < length sample_listing
  /\ 3 < length (sentences_of sample_listing)
  /\ 2 < length (detected_tokens sample_listing)
  /\ ~ In LF sample_listing
  /\ ~ In (ch "*") sample_listing
  /\ (exists rows,
        MessageContent (formatAIResponse sample_listing)
        = Paragraph (str "I found several great options:") :: Spacer
          :: rows
          ++ [Spacer;
              Paragraph (str "Would you like me to provide more details about any of these options?")]
        /\ length rows = 4)
  /\ nth 3 (MessageContent (formatAIResponse sample_listing)) Spacer
     = BulletRow (str "<strong>kaggle.com</strong> - You could start with HuggingFace for models! Many people like  for data sets? The research group OpenAi publishes papers as well.").
Proof.
  assert (H1 : has_marker sample_listing = false) by (vm_compute; reflexivity).
  assert (H2 : 300 < length sample_listing)
    by (apply Nat.ltb_lt; vm_compute; reflexivity).
  assert (H3 : 3 < length (sentences_of sample_listing))
    by (apply Nat.ltb_lt; vm_compute; reflexivity).
  assert (H4 : 2 < length (detected_tokens sample_listing))
    by (apply Nat.ltb_lt; vm_compute; reflexivity).
  assert (H5 : ~ In LF sample_listing).
  { intros H. assert (E : existsb (N.eqb LF) sample_listing = true).
    { apply existsb_exists. exists LF. split; [exact H | apply N.eqb_refl]. }
    vm_compute in E. discriminate E. }
  assert (H6 : ~ In (ch "*") sample_listing).
  { intros H. assert (E : existsb (N.eqb (ch "*")) sample_listing = true).
    { apply existsb_exists. exists (ch "*"). split; [exact H | apply N.eqb_refl]. }
    vm_compute in E. discriminate E. }
  split; [exact H1|]. split; [exact H2|]. split; [exact H3|].
  split; [exact H4|]. split; [exact H5|]. split; [exact H6|].
  split; [|vm_compute; reflexivity].
  destruct (synthesized_list_renders_as_rows sample_listing H1 H2 H3 H4 H5 H6)
    as (bodies & L & _ & E).
  eexists. split; [exact E|].
  rewrite length_map, length_combine, L, Nat.min_id. vm_compute. reflexivity.
Defined.
